(** * PipelineRun: the run view of dagit

    A shallow embedding of the [PipelineRun] React component: its props
    and state, the data of the [PipelineRunFragment] it reads, and its
    event handlers
    [onShowStateDetails], [onReexecuteStep], [onApplyStepFilter], the
    dialog's [onClose], the toolbar's [onSetFilter] and the divider's
    [onMove].

    Handlers are written in a small monad that threads the component state
    (changed only through [setState]), records the calls made to outside
    collaborators (the GraphQL mutation, [handleStartExecutionResult]) and
    propagates exceptions ([yaml.parse] throwing, the mutation's promise
    rejecting). *)

From Stdlib Require Import String List Bool ZArith Lia.
Import ListNotations.
Open Scope string_scope.

(** ** Data read from the GraphQL fragment [PipelineRunFragment] *)

Module OutputType.
Record t := mk { name : string }.
End OutputType.

Module StepOutput.
Record t := mk { name : string; type : OutputType.t }.
End StepOutput.

Module DependsOn.
Record t := mk { key : string; outputs : list StepOutput.t }.
End DependsOn.

Module StepInput.
Record t := mk { dependsOn : DependsOn.t }.
End StepInput.

Module Step.
Record t := mk { key : string; inputs : list StepInput.t }.
End Step.

Module ExecutionPlan.
Record t := mk { steps : list Step.t; artifactsPersisted : bool }.
End ExecutionPlan.

Module PythonError.
Record t := mk { message : string; stack : list string }.
End PythonError.

Module EventStep.
Record t := mk { name : string }.
End EventStep.

(** Modelled from the spec: the generated union type
    [PipelineRunFragment_logs_nodes] is not part of the sources; the kinds of
    event other than the step failure are the closed set the specification
    lists (StepStart, StepSuccess, StepSkipped, EngineEvent, UserLog). *)
Inductive OtherEventKind :=
| StepStart
| StepSuccess
| StepSkipped
| EngineEvent
| UserLog.

(** A node of [run.logs.nodes].  Only [ExecutionStepFailureEvent] carries an
    [error]; [step] is nullable on every kind. *)
Inductive LogNode :=
| ExecutionStepFailureEvent (step : option EventStep.t) (error : PythonError.t)
| OtherEvent (kind : OtherEventKind) (step : option EventStep.t).

Definition typename_of_kind (k : OtherEventKind) : string :=
  match k with
  | StepStart => "StepStart"
  | StepSuccess => "StepSuccess"
  | StepSkipped => "StepSkipped"
  | EngineEvent => "EngineEvent"
  | UserLog => "UserLog"
  end.

(** [node.__typename] *)
Definition typename (node : LogNode) : string :=
  match node with
  | ExecutionStepFailureEvent _ _ => "ExecutionStepFailureEvent"
  | OtherEvent k _ => typename_of_kind k
  end.

(** [node.step] *)
Definition node_step (node : LogNode) : option EventStep.t :=
  match node with
  | ExecutionStepFailureEvent s _ => s
  | OtherEvent _ s => s
  end.

(** [node.error]: [undefined] on a node that has no such property. *)
Definition node_error (node : LogNode) : option PythonError.t :=
  match node with
  | ExecutionStepFailureEvent _ e => Some e
  | OtherEvent _ _ => None
  end.

Module Logs.
Record t := mk { nodes : list LogNode }.
End Logs.

Module Solid.
Record t := mk { name : string }.
End Solid.

Module Pipeline.
Record t := mk { name : string; solids : list Solid.t }.
End Pipeline.

Module PipelineRunFragment.
Record t := mk {
  config : string;
  runId : string;
  mode : string;
  pipeline : Pipeline.t;
  logs : Logs.t;
  executionPlan : ExecutionPlan.t
}.
End PipelineRunFragment.

(** ** Variables of the [ReexecuteStep] mutation *)

Module StepOutputHandle.
Record t := mk { stepKey : string; outputName : string }.

Definition eq_dec (a b : t) : {a = b} + {a <> b}.
Proof. decide equality; apply string_dec. Defined.
End StepOutputHandle.

Module ReexecutionConfig.
Record t := mk {
  previousRunId : string;
  stepOutputHandles : list StepOutputHandle.t
}.
End ReexecutionConfig.

Module ExecutionSelector.
Record t := mk { name : string; solidSubset : list string }.
End ExecutionSelector.

Module ReexecuteStepVariables.
Record t (Config : Type) := mk {
  pipeline : ExecutionSelector.t;
  config : Config;
  stepKeys : list string;
  reexecutionConfig : ReexecutionConfig.t;
  mode : string
}.
Arguments mk {Config}.
Arguments pipeline {Config}.
Arguments config {Config}.
Arguments stepKeys {Config}.
Arguments reexecutionConfig {Config}.
Arguments mode {Config}.
End ReexecuteStepVariables.

(** ** Props and state of the component *)

(** Modelled from the spec: [ILogFilter] is declared in LogsFilterProvider,
    which is not part of the sources; its fields are those of the
    specification's LogFilterSpec. *)
Module ILogFilter.
Record t := mk {
  text : string;
  levels : list string;
  sinceStepKey : option string
}.
End ILogFilter.

(** [client] is only handed to the subscription provider and is left out. *)
Module IPipelineRunProps.
Record t := mk { run : option PipelineRunFragment.t }.
End IPipelineRunProps.

(** [logsVW] is a width in viewport units; the component only stores it. *)
Module IPipelineRunState.
Record t := mk {
  logsVW : Z;
  logsFilter : ILogFilter.t;
  highlightedError : option PythonError.t
}.
End IPipelineRunState.

(** The argument of [this.setState]: the fields present are replaced, the
    others are kept.  [highlightedError: undefined] is [Some None]. *)
Module StateUpdate.
Record t := mk {
  logsVW : option Z;
  logsFilter : option ILogFilter.t;
  highlightedError : option (option PythonError.t)
}.

Definition none : t := mk None None None.

Definition apply (u : t) (s : IPipelineRunState.t) : IPipelineRunState.t :=
  IPipelineRunState.mk
    (match logsVW u with
     | Some v => v
     | None => IPipelineRunState.logsVW s
     end)
    (match logsFilter u with
     | Some f => f
     | None => IPipelineRunState.logsFilter s
     end)
    (match highlightedError u with
     | Some e => e
     | None => IPipelineRunState.highlightedError s
     end).
End StateUpdate.

(** ** Array helpers *)

(** [arr.push(x)] on the array threaded through a loop. *)
Definition push {A : Type} (arr : list A) (x : A) : list A := arr ++ [x].

(** [l.forEach(body)], where [body] updates a mutable value of type [S]. *)
Definition forEach {A S : Type} (l : list A) (body : A -> S -> S) (s : S) : S :=
  fold_left (fun acc a => body a acc) l s.

(** ** The handler monad *)

(** What a handler can throw: [yaml.parse] on a malformed configuration, and
    the awaited mutation promise when it rejects. *)
Inductive Exn :=
| YAMLParseError
| MutationRejected.

Inductive Completion (A : Type) :=
| Returned (a : A)
| Thrown (e : Exn).
Arguments Returned {A}.
Arguments Thrown {A}.

Section Handlers.

(** The value [yaml.parse] produces and the value the mutation promise
    resolves to are opaque to the component. *)
Variable Config : Type.
Variable MutationResult : Type.

(** [yaml.parse]: [None] when it throws. *)
Variable yaml_parse : string -> option Config.

(** Calls that leave the component, in the order they are made. *)
Inductive Effect :=
| Mutation (variables : ReexecuteStepVariables.t Config)
| HandleStartExecutionResult (pipelineName : string) (result : MutationResult).

Record Outcome (A : Type) := mkOutcome {
  effects : list Effect;
  state : IPipelineRunState.t;
  completion : Completion A
}.
Arguments mkOutcome {A}.
Arguments effects {A}.
Arguments state {A}.
Arguments completion {A}.

Definition M (A : Type) : Type := IPipelineRunState.t -> Outcome A.

Definition ret {A : Type} (a : A) : M A :=
  fun s => mkOutcome [] s (Returned a).

Definition throw {A : Type} (e : Exn) : M A :=
  fun s => mkOutcome [] s (Thrown e).

Definition bind {A B : Type} (m : M A) (k : A -> M B) : M B :=
  fun s =>
    let r := m s in
    match completion r with
    | Returned a =>
        let r' := k a (state r) in
        mkOutcome (effects r ++ effects r') (state r') (completion r')
    | Thrown e => mkOutcome (effects r) (state r) (Thrown e)
    end.

Definition perform (e : Effect) : M unit :=
  fun s => mkOutcome [e] s (Returned tt).

(** [this.setState(u)]; the merge is applied at once. *)
Definition setState (u : StateUpdate.t) : M unit :=
  fun s => mkOutcome [] (StateUpdate.apply u s) (Returned tt).

Notation "x <- m ;; k" := (bind m (fun x => k))
  (at level 61, m at next level, right associativity).
Notation "m ;;; k" := (bind m (fun _ => k))
  (at level 61, right associativity).

(** [yaml.parse(text)] *)
Definition yaml_parse_M (text : string) : M Config :=
  match yaml_parse text with
  | Some c => ret c
  | None => throw YAMLParseError
  end.

(** [await mutation({ variables })]: the call is made, then the promise
    either resolves ([Some]) or rejects ([None]). *)
Definition MutationFn : Type :=
  ReexecuteStepVariables.t Config -> option MutationResult.

Definition await_mutation (mutation : MutationFn)
    (variables : ReexecuteStepVariables.t Config) : M MutationResult :=
  perform (Mutation variables) ;;;
  match mutation variables with
  | Some r => ret r
  | None => throw MutationRejected
  end.

(** ** Handlers *)

(** The predicate given to [run.logs.nodes.find] in [onShowStateDetails]. *)
Definition isFailureOfStep (step : string) (node : LogNode) : bool :=
  String.eqb (typename node) "ExecutionStepFailureEvent"
  && match node_step node with
     | Some s => String.eqb (EventStep.name s) step
     | None => false
     end.

Definition onShowStateDetails (props : IPipelineRunProps.t) (step : string)
    : M unit :=
  match IPipelineRunProps.run props with
  | None => ret tt
  | Some run =>
      let errorNode :=
        find (isFailureOfStep step)
             (Logs.nodes (PipelineRunFragment.logs run)) in
      match errorNode with
      | Some errorNode =>
          setState
            (StateUpdate.mk None None (Some (node_error errorNode)))
      | None => ret tt
      end
  end.

(** The two nested [forEach] loops of [onReexecuteStep], which push onto
    [reexecutionConfig.stepOutputHandles]. *)
Definition pushStepOutputHandle (cfg : ReexecutionConfig.t)
    (h : StepOutputHandle.t) : ReexecutionConfig.t :=
  ReexecutionConfig.mk
    (ReexecutionConfig.previousRunId cfg)
    (push (ReexecutionConfig.stepOutputHandles cfg) h).

Definition collectStepOutputHandles (step : Step.t)
    (reexecutionConfig : ReexecutionConfig.t) : ReexecutionConfig.t :=
  forEach (Step.inputs step)
    (fun input =>
       forEach (DependsOn.outputs (StepInput.dependsOn input))
         (fun outputOfDependentStep cfg =>
            pushStepOutputHandle cfg
              (StepOutputHandle.mk
                 (DependsOn.key (StepInput.dependsOn input))
                 (StepOutput.name outputOfDependentStep))))
    reexecutionConfig.

Definition onReexecuteStep (props : IPipelineRunProps.t)
    (mutation : MutationFn) (stepName : string) : M unit :=
  match IPipelineRunProps.run props with
  | None => ret tt
  | Some run =>
      match find (fun s => String.eqb (Step.key s) stepName)
                 (ExecutionPlan.steps
                    (PipelineRunFragment.executionPlan run)) with
      | None => ret tt
      | Some step =>
          let reexecutionConfig :=
            collectStepOutputHandles step
              (ReexecutionConfig.mk (PipelineRunFragment.runId run) []) in
          let pipelineName :=
            Pipeline.name (PipelineRunFragment.pipeline run) in
          let selector :=
            ExecutionSelector.mk pipelineName
              (map Solid.name
                 (Pipeline.solids (PipelineRunFragment.pipeline run))) in
          config <- yaml_parse_M (PipelineRunFragment.config run) ;;
          result <- await_mutation mutation
                      (ReexecuteStepVariables.mk
                         selector
                         config
                         [stepName]
                         reexecutionConfig
                         (PipelineRunFragment.mode run)) ;;
          perform (HandleStartExecutionResult pipelineName result)
      end
  end.

(** The callbacks built in [render] close over the state destructured there
    ([logsFilter]). *)
Definition onSetFilter (filter : ILogFilter.t) : M unit :=
  setState (StateUpdate.mk None (Some filter) None).

Definition onMove (vw : Z) : M unit :=
  setState (StateUpdate.mk (Some vw) None None).

Definition onApplyStepFilter (logsFilter : ILogFilter.t) (stepName : string)
    : M unit :=
  setState
    (StateUpdate.mk None
       (Some (ILogFilter.mk
                ("step:" ++ stepName)
                (ILogFilter.levels logsFilter)
                (ILogFilter.sinceStepKey logsFilter)))
       None).

(** The error dialog's [onClose]. *)
Definition onClose : M unit :=
  setState (StateUpdate.mk None None (Some None)).

End Handlers.

Arguments Mutation {Config MutationResult}.
Arguments HandleStartExecutionResult {Config MutationResult}.
Arguments mkOutcome {Config MutationResult A}.
Arguments effects {Config MutationResult A}.
Arguments state {Config MutationResult A}.
Arguments completion {Config MutationResult A}.
Arguments onShowStateDetails {Config MutationResult}.
Arguments onReexecuteStep {Config MutationResult}.
Arguments onSetFilter {Config MutationResult}.
Arguments onMove {Config MutationResult}.
Arguments onApplyStepFilter {Config MutationResult}.
Arguments onClose {Config MutationResult}.

(** The variables of the mutation calls found in a trace of effects: the
    re-execution requests that were submitted. *)
Fixpoint submitted {Config MutationResult : Type}
    (es : list (Effect Config MutationResult))
    : list (ReexecuteStepVariables.t Config) :=
  match es with
  | [] => []
  | Mutation v :: es' => v :: submitted es'
  | HandleStartExecutionResult _ _ :: es' => submitted es'
  end.

(** ** Reference definitions for the handles of a step *)

(** The handles one input contributes: one per output its upstream step
    declares, in the order they are declared. *)
Definition handlesOfInput (input : StepInput.t) : list StepOutputHandle.t :=
  map (fun o =>
         StepOutputHandle.mk
           (DependsOn.key (StepInput.dependsOn input))
           (StepOutput.name o))
      (DependsOn.outputs (StepInput.dependsOn input)).

(** The handles of a list of inputs, input after input. *)
Definition handlesOfInputs (inputs : list StepInput.t)
    : list StepOutputHandle.t :=
  flat_map handlesOfInput inputs.

(** The number of outputs the upstream step of an input declares. *)
Definition upstreamOutputCount (input : StepInput.t) : nat :=
  length (DependsOn.outputs (StepInput.dependsOn input)).

(** [[stepName]] looked up the way [onReexecuteStep] does. *)
Definition findStep (plan : ExecutionPlan.t) (stepName : string)
    : option Step.t :=
  find (fun s => String.eqb (Step.key s) stepName) (ExecutionPlan.steps plan).

(** A run whose plan has another [artifactsPersisted] flag and is otherwise
    the same. *)
Definition withArtifactsPersisted (b : bool) (run : PipelineRunFragment.t)
    : PipelineRunFragment.t :=
  PipelineRunFragment.mk
    (PipelineRunFragment.config run)
    (PipelineRunFragment.runId run)
    (PipelineRunFragment.mode run)
    (PipelineRunFragment.pipeline run)
    (PipelineRunFragment.logs run)
    (ExecutionPlan.mk
       (ExecutionPlan.steps (PipelineRunFragment.executionPlan run))
       b).

(** The value of [reexecutionConfig.stepOutputHandles] once the loops of
    [onReexecuteStep] have run for a step of a run. *)
Definition plannedHandles (run : PipelineRunFragment.t) (step : Step.t)
    : list StepOutputHandle.t :=
  ReexecutionConfig.stepOutputHandles
    (collectStepOutputHandles step
       (ReexecutionConfig.mk (PipelineRunFragment.runId run) [])).

(** The request [onReexecuteStep] hands to the mutation for a step of the
    plan, with the handles written as [handlesOfInputs]. *)
Definition requestFor {Config : Type} (run : PipelineRunFragment.t)
    (stepName : string) (step : Step.t) (config : Config)
    : ReexecuteStepVariables.t Config :=
  ReexecuteStepVariables.mk
    (ExecutionSelector.mk
       (Pipeline.name (PipelineRunFragment.pipeline run))
       (map Solid.name (Pipeline.solids (PipelineRunFragment.pipeline run))))
    config
    [stepName]
    (ReexecutionConfig.mk
       (PipelineRunFragment.runId run)
       (handlesOfInputs (Step.inputs step)))
    (PipelineRunFragment.mode run).

(** The handles carried by a request. *)
Definition reusedOutputs {Config : Type} (v : ReexecuteStepVariables.t Config)
    : list StepOutputHandle.t :=
  ReexecutionConfig.stepOutputHandles
    (ReexecuteStepVariables.reexecutionConfig v).

(** A handler that returned without touching the state or calling out. *)
Definition silent {Config MutationResult : Type} (st : IPipelineRunState.t)
    : Outcome Config MutationResult unit :=
  mkOutcome [] st (Returned tt).

(** ** Sample data *)

(** A stand-in for [yaml.parse]: the empty document is rejected. *)
Definition sampleYamlParse (text : string) : option string :=
  if String.eqb text "" then None else Some text.

(** A mutation whose promise resolves. *)
Definition sampleMutation (v : ReexecuteStepVariables.t string)
    : option string :=
  Some "started".

Definition sampleLogs : Logs.t :=
  Logs.mk
    [ OtherEvent StepStart (Some (EventStep.mk "X"));
      ExecutionStepFailureEvent (Some (EventStep.mk "X"))
        (PythonError.mk "boom" []) ].

Definition sampleRun (steps : list Step.t) (artifactsPersisted : bool)
    : PipelineRunFragment.t :=
  PipelineRunFragment.mk
    "solids: {}" "run-1" "default"
    (Pipeline.mk "pipe" [Solid.mk "a"; Solid.mk "b"; Solid.mk "t"])
    sampleLogs
    (ExecutionPlan.mk steps artifactsPersisted).

Definition anyType : OutputType.t := OutputType.mk "Any".

Definition upstreamA : DependsOn.t :=
  DependsOn.mk "A" [StepOutput.mk "result" anyType].

Definition upstreamB : DependsOn.t :=
  DependsOn.mk "B" [StepOutput.mk "value" anyType].

(** Step T reads the single outputs of A and B. *)
Definition stepTwoInputs : Step.t :=
  Step.mk "T" [StepInput.mk upstreamA; StepInput.mk upstreamB].

Definition stepsTwoInputs : list Step.t :=
  [Step.mk "A" []; Step.mk "B" []; stepTwoInputs].

(** Step T has one input, whose upstream step declares two outputs. *)
Definition stepTwoOutputs : Step.t :=
  Step.mk "T"
    [ StepInput.mk
        (DependsOn.mk "A"
           [StepOutput.mk "x" anyType; StepOutput.mk "y" anyType]) ].

Definition stepsTwoOutputs : list Step.t :=
  [Step.mk "A" []; stepTwoOutputs].

(** Step T has two inputs that both read the output of A. *)
Definition stepSharedUpstream : Step.t :=
  Step.mk "T" [StepInput.mk upstreamA; StepInput.mk upstreamA].

Definition stepsSharedUpstream : list Step.t :=
  [Step.mk "A" []; stepSharedUpstream].

Definition sampleFilter : ILogFilter.t :=
  ILogFilter.mk "" ["INFO"; "ERROR"] None.

Definition sampleState : IPipelineRunState.t :=
  IPipelineRunState.mk 75 sampleFilter None.

Definition sampleProps (steps : list Step.t) (artifactsPersisted : bool)
    : IPipelineRunProps.t :=
  IPipelineRunProps.mk (Some (sampleRun steps artifactsPersisted)).

(** The request expected for step T of a sample run. *)
Definition sampleRequest (step : Step.t) : ReexecuteStepVariables.t string :=
  ReexecuteStepVariables.mk
    (ExecutionSelector.mk "pipe" ["a"; "b"; "t"])
    "solids: {}"
    ["T"]
    (ReexecutionConfig.mk "run-1" (handlesOfInputs (Step.inputs step)))
    "default".

Definition boom : PythonError.t := PythonError.mk "boom" [].

(** ** What [render] derives from props and state *)

(** [run ? run.logs.nodes : undefined] *)
Definition renderedLogs (props : IPipelineRunProps.t)
    : option (list LogNode) :=
  match IPipelineRunProps.run props with
  | Some run => Some (Logs.nodes (PipelineRunFragment.logs run))
  | None => None
  end.

(** [run ? run.executionPlan : { steps: [], artifactsPersisted: false }] *)
Definition renderedExecutionPlan (props : IPipelineRunProps.t)
    : ExecutionPlan.t :=
  match IPipelineRunProps.run props with
  | Some run => PipelineRunFragment.executionPlan run
  | None => ExecutionPlan.mk [] false
  end.

(** [logs || []], the logs handed to the metadata provider; an array is
    truthy even when it is empty. *)
Definition metadataLogs (props : IPipelineRunProps.t) : list LogNode :=
  match renderedLogs props with
  | Some nodes => nodes
  | None => []
  end.

(** [isOpen={!!highlightedError}] of the error dialog. *)
Definition dialogIsOpen (st : IPipelineRunState.t) : bool :=
  match IPipelineRunState.highlightedError st with
  | Some _ => true
  | None => false
  end.

(** The error the dialog body shows,
    [highlightedError && <PythonErrorInfo error={highlightedError} />]. *)
Definition dialogError (st : IPipelineRunState.t) : option PythonError.t :=
  IPipelineRunState.highlightedError st.

(** ** The callbacks [render] hands to its children *)

Section Callbacks.

Variable Config : Type.
Variable MutationResult : Type.
Variable yaml_parse : string -> option Config.

(** One call of a callback by a child component.  [ReexecuteStep] carries
    the mutation function the [Mutation] render prop supplied. *)
Inductive UIEvent :=
| ShowStateDetails (step : string)
| ReexecuteStep (mutation : MutationFn Config MutationResult)
    (stepName : string)
| ApplyStepFilter (stepName : string)
| SetFilter (filter : ILogFilter.t)
| Move (vw : Z)
| CloseDialog.

(** The handler a callback of the latest render runs: [onApplyStepFilter]
    closes over the filter of the state that was rendered. *)
Definition dispatch (props : IPipelineRunProps.t) (ev : UIEvent)
    (st : IPipelineRunState.t) : Outcome Config MutationResult unit :=
  match ev with
  | ShowStateDetails step => onShowStateDetails props step st
  | ReexecuteStep mutation stepName =>
      onReexecuteStep yaml_parse props mutation stepName st
  | ApplyStepFilter stepName =>
      onApplyStepFilter (IPipelineRunState.logsFilter st) stepName st
  | SetFilter filter => onSetFilter filter st
  | Move vw => onMove vw st
  | CloseDialog => onClose st
  end.

(** A sequence of callback calls, each under the props of its time and
    each taken to run to its end before the next one starts.  A handler
    that throws leaves the component running: the next call starts from the
    state the handler left.  The calls that leave the component are
    collected in order. *)
Fixpoint dispatchAll (evs : list (IPipelineRunProps.t * UIEvent))
    (st : IPipelineRunState.t)
    : list (Effect Config MutationResult) * IPipelineRunState.t :=
  match evs with
  | [] => ([], st)
  | (props, ev) :: evs' =>
      let o := dispatch props ev st in
      let rest := dispatchAll evs' (state o) in
      ((effects o ++ fst rest)%list, snd rest)
  end.

End Callbacks.

Arguments ShowStateDetails {Config MutationResult}.
Arguments ReexecuteStep {Config MutationResult}.
Arguments ApplyStepFilter {Config MutationResult}.
Arguments SetFilter {Config MutationResult}.
Arguments Move {Config MutationResult}.
Arguments CloseDialog {Config MutationResult}.
Arguments dispatch {Config MutationResult}.
Arguments dispatchAll {Config MutationResult}.

(** ** Further reference definitions *)

(** A run with other log nodes and otherwise the same. *)
Definition withLogs (nodes : list LogNode) (run : PipelineRunFragment.t)
    : PipelineRunFragment.t :=
  PipelineRunFragment.mk
    (PipelineRunFragment.config run)
    (PipelineRunFragment.runId run)
    (PipelineRunFragment.mode run)
    (PipelineRunFragment.pipeline run)
    (Logs.mk nodes)
    (PipelineRunFragment.executionPlan run).

(** The nodes whose [__typename] is that of a step failure. *)
Definition isFailureEvent (node : LogNode) : bool :=
  String.eqb (typename node) "ExecutionStepFailureEvent".

(** The step names of the [ReexecuteStep] calls of a sequence. *)
Fixpoint reexecutedSteps {Config MutationResult : Type}
    (evs : list (IPipelineRunProps.t * UIEvent Config MutationResult))
    : list string :=
  match evs with
  | [] => []
  | (_, ReexecuteStep _ stepName) :: evs' => stepName :: reexecutedSteps evs'
  | _ :: evs' => reexecutedSteps evs'
  end.

(** Whether a call replaces the whole filter. *)
Definition isSetFilter {Config MutationResult : Type}
    (ev : UIEvent Config MutationResult) : bool :=
  match ev with
  | SetFilter _ => true
  | _ => false
  end.

(** Whether a call moves the divider. *)
Definition isMove {Config MutationResult : Type}
    (ev : UIEvent Config MutationResult) : bool :=
  match ev with
  | Move _ => true
  | _ => false
  end.

(** Whether a call is a re-execution request. *)
Definition isReexecuteStep {Config MutationResult : Type}
    (ev : UIEvent Config MutationResult) : bool :=
  match ev with
  | ReexecuteStep _ _ => true
  | _ => false
  end.

(** The step name of the last [ApplyStepFilter] call of a sequence. *)
Fixpoint lastAppliedStep {Config MutationResult : Type}
    (evs : list (IPipelineRunProps.t * UIEvent Config MutationResult))
    : option string :=
  match evs with
  | [] => None
  | (_, ev) :: evs' =>
      match lastAppliedStep evs' with
      | Some s => Some s
      | None =>
          match ev with
          | ApplyStepFilter s => Some s
          | _ => None
          end
      end
  end.

(** ** Further sample data *)

(** Two steps share the key T; the first reads A, the second reads B. *)
Definition stepFirstT : Step.t := Step.mk "T" [StepInput.mk upstreamA].

Definition stepSecondT : Step.t := Step.mk "T" [StepInput.mk upstreamB].

Definition stepsDuplicateKey : list Step.t := [stepFirstT; stepSecondT].

(** A run whose configuration [sampleYamlParse] rejects. *)
Definition sampleRunBadConfig : PipelineRunFragment.t :=
  PipelineRunFragment.mk
    "" "run-1" "default"
    (Pipeline.mk "pipe" [Solid.mk "a"; Solid.mk "b"; Solid.mk "t"])
    sampleLogs
    (ExecutionPlan.mk stepsTwoInputs true).

(** A mutation whose promise rejects. *)
Definition rejectingMutation (v : ReexecuteStepVariables.t string)
    : option string :=
  None.

Definition sampleEvents
    : list (IPipelineRunProps.t * UIEvent string string) :=
  [ (sampleProps stepsTwoInputs true, ShowStateDetails "X");
    (sampleProps stepsTwoInputs true, ApplyStepFilter "T");
    (sampleProps stepsTwoInputs true, ReexecuteStep sampleMutation "T");
    (sampleProps stepsTwoInputs true, ApplyStepFilter "A") ].

(** ** Properties of the list helpers *)

Lemma forEach_nil {A S : Type} (body : A -> S -> S) (s : S) :
  forEach [] body s = s.
Proof. reflexivity. Qed.

Lemma forEach_cons {A S : Type} (a : A) (l : list A) (body : A -> S -> S)
    (s : S) :
  forEach (a :: l) body s = forEach l body (body a s).
Proof. reflexivity. Qed.

Lemma forEach_push_outputs (k : string) (outs : list StepOutput.t) :
  forall cfg,
    forEach outs
      (fun o c =>
         pushStepOutputHandle c (StepOutputHandle.mk k (StepOutput.name o)))
      cfg
    = ReexecutionConfig.mk
        (ReexecutionConfig.previousRunId cfg)
        (ReexecutionConfig.stepOutputHandles cfg
           ++ map (fun o => StepOutputHandle.mk k (StepOutput.name o)) outs).
Proof.
  induction outs as [|o outs IH]; intros [rid hs].
  - rewrite forEach_nil. simpl. now rewrite app_nil_r.
  - rewrite forEach_cons, IH. unfold pushStepOutputHandle, push. simpl.
    now rewrite <- app_assoc.
Qed.

Lemma forEach_inputs (inputs : list StepInput.t) :
  forall cfg,
    forEach inputs
      (fun input =>
         forEach (DependsOn.outputs (StepInput.dependsOn input))
           (fun o c =>
              pushStepOutputHandle c
                (StepOutputHandle.mk
                   (DependsOn.key (StepInput.dependsOn input))
                   (StepOutput.name o))))
      cfg
    = ReexecutionConfig.mk
        (ReexecutionConfig.previousRunId cfg)
        (ReexecutionConfig.stepOutputHandles cfg ++ handlesOfInputs inputs).
Proof.
  induction inputs as [|input inputs IH]; intros [rid hs].
  - rewrite forEach_nil. simpl. now rewrite app_nil_r.
  - rewrite forEach_cons, forEach_push_outputs, IH. simpl.
    unfold handlesOfInput. now rewrite <- app_assoc.
Qed.

Lemma collectStepOutputHandles_spec (step : Step.t) (runId : string) :
  collectStepOutputHandles step (ReexecutionConfig.mk runId [])
  = ReexecutionConfig.mk runId (handlesOfInputs (Step.inputs step)).
Proof. unfold collectStepOutputHandles. now rewrite forEach_inputs. Qed.

Lemma length_handlesOfInputs (inputs : list StepInput.t) :
  length (handlesOfInputs inputs)
  = list_sum (map upstreamOutputCount inputs).
Proof.
  induction inputs as [|i inputs IH]; simpl; trivial.
  rewrite length_app, IH. unfold handlesOfInput, upstreamOutputCount.
  now rewrite length_map.
Qed.

Lemma list_sum_all_ones {A : Type} (f : A -> nat) (l : list A) :
  (forall a, In a l -> f a = 1) -> list_sum (map f l) = length l.
Proof.
  induction l as [|a l IH]; simpl; intros H; trivial.
  rewrite (H a (or_introl eq_refl)), IH; auto.
Qed.

Lemma In_handlesOfInputs (inputs : list StepInput.t) (h : StepOutputHandle.t) :
  In h (handlesOfInputs inputs) <->
  exists input o,
    In input inputs
    /\ In o (DependsOn.outputs (StepInput.dependsOn input))
    /\ h = StepOutputHandle.mk
             (DependsOn.key (StepInput.dependsOn input))
             (StepOutput.name o).
Proof.
  unfold handlesOfInputs. rewrite in_flat_map. split.
  - intros (input & Hin & Hh). unfold handlesOfInput in Hh.
    apply in_map_iff in Hh as (o & Ho & Hino).
    exists input, o. auto.
  - intros (input & o & Hin & Ho & ->). exists input. split; trivial.
    unfold handlesOfInput. apply in_map_iff. exists o. auto.
Qed.

Lemma count_occ_handlesOfInputs (inputs : list StepInput.t)
    (h : StepOutputHandle.t) :
  count_occ StepOutputHandle.eq_dec (handlesOfInputs inputs) h
  = list_sum
      (map (fun input =>
              count_occ StepOutputHandle.eq_dec (handlesOfInput input) h)
           inputs).
Proof.
  induction inputs as [|i inputs IH]; simpl; trivial.
  now rewrite count_occ_app, IH.
Qed.

(** ** Properties of the handlers *)

Section Properties.

Variable Config : Type.
Variable MutationResult : Type.
Variable yaml_parse : string -> option Config.

Lemma onReexecuteStep_no_run (mutation : MutationFn Config MutationResult) (stepName : string)
    (st : IPipelineRunState.t) :
  onReexecuteStep yaml_parse (IPipelineRunProps.mk None) mutation stepName st
  = silent st.
Proof. reflexivity. Qed.

Lemma onReexecuteStep_no_step (props : IPipelineRunProps.t)
    (run : PipelineRunFragment.t) (mutation : MutationFn Config MutationResult)
    (stepName : string) (st : IPipelineRunState.t) :
  IPipelineRunProps.run props = Some run ->
  findStep (PipelineRunFragment.executionPlan run) stepName = None ->
  onReexecuteStep yaml_parse props mutation stepName st = silent st.
Proof.
  intros Hrun Hfind. unfold onReexecuteStep, findStep in *.
  now rewrite Hrun, Hfind.
Qed.

Lemma onReexecuteStep_bad_config (props : IPipelineRunProps.t)
    (run : PipelineRunFragment.t) (mutation : MutationFn Config MutationResult)
    (stepName : string) (step : Step.t) (st : IPipelineRunState.t) :
  IPipelineRunProps.run props = Some run ->
  findStep (PipelineRunFragment.executionPlan run) stepName = Some step ->
  yaml_parse (PipelineRunFragment.config run) = None ->
  onReexecuteStep yaml_parse props mutation stepName st
  = mkOutcome [] st (Thrown YAMLParseError).
Proof.
  intros Hrun Hfind Hyaml. unfold onReexecuteStep, findStep in *.
  rewrite Hrun, Hfind. unfold bind, yaml_parse_M. now rewrite Hyaml.
Qed.

Lemma onReexecuteStep_found (props : IPipelineRunProps.t)
    (run : PipelineRunFragment.t) (mutation : MutationFn Config MutationResult)
    (stepName : string) (step : Step.t) (config : Config)
    (st : IPipelineRunState.t) :
  IPipelineRunProps.run props = Some run ->
  findStep (PipelineRunFragment.executionPlan run) stepName = Some step ->
  yaml_parse (PipelineRunFragment.config run) = Some config ->
  onReexecuteStep yaml_parse props mutation stepName st
  = match mutation (requestFor run stepName step config) with
    | Some result =>
        mkOutcome
          [ Mutation (requestFor run stepName step config);
            HandleStartExecutionResult
              (Pipeline.name (PipelineRunFragment.pipeline run)) result ]
          st (Returned tt)
    | None =>
        mkOutcome [Mutation (requestFor run stepName step config)] st
          (Thrown MutationRejected)
    end.
Proof.
  intros Hrun Hfind Hyaml. unfold onReexecuteStep, findStep in *.
  rewrite Hrun, Hfind, collectStepOutputHandles_spec.
  unfold bind, yaml_parse_M, await_mutation, bind, perform.
  rewrite Hyaml. simpl. unfold requestFor.
  destruct (mutation _); reflexivity.
Qed.

Lemma onReexecuteStep_submitted (props : IPipelineRunProps.t)
    (run : PipelineRunFragment.t) (mutation : MutationFn Config MutationResult)
    (stepName : string) (step : Step.t) (config : Config)
    (st : IPipelineRunState.t) :
  IPipelineRunProps.run props = Some run ->
  findStep (PipelineRunFragment.executionPlan run) stepName = Some step ->
  yaml_parse (PipelineRunFragment.config run) = Some config ->
  submitted (effects (onReexecuteStep yaml_parse props mutation stepName st))
  = [requestFor run stepName step config].
Proof.
  intros Hrun Hfind Hyaml.
  rewrite (onReexecuteStep_found _ _ _ _ _ _ _ Hrun Hfind Hyaml).
  destruct (mutation _); reflexivity.
Qed.

Lemma onReexecuteStep_submitted_inv (props : IPipelineRunProps.t)
    (mutation : MutationFn Config MutationResult) (stepName : string)
    (st : IPipelineRunState.t)
    (v : ReexecuteStepVariables.t Config) :
  In v (submitted
          (effects (onReexecuteStep yaml_parse props mutation stepName st))) ->
  exists run step config,
    IPipelineRunProps.run props = Some run
    /\ findStep (PipelineRunFragment.executionPlan run) stepName = Some step
    /\ yaml_parse (PipelineRunFragment.config run) = Some config
    /\ v = requestFor run stepName step config.
Proof.
  destruct props as [[run|]].
  2: { rewrite onReexecuteStep_no_run. simpl. tauto. }
  destruct (findStep (PipelineRunFragment.executionPlan run) stepName)
    as [step|] eqn:Hfind.
  2: { rewrite (onReexecuteStep_no_step _ run) by easy. simpl. tauto. }
  destruct (yaml_parse (PipelineRunFragment.config run)) as [config|] eqn:Hy.
  2: { rewrite (onReexecuteStep_bad_config _ run _ _ step) by easy.
       simpl. tauto. }
  rewrite (onReexecuteStep_submitted _ run _ _ step config) by easy.
  intros [<-|[]]. exists run, step, config. auto.
Qed.

Lemma find_none_iff (plan : ExecutionPlan.t) (stepName : string) :
  findStep plan stepName = None <->
  (forall s, In s (ExecutionPlan.steps plan) -> Step.key s <> stepName).
Proof.
  unfold findStep. split.
  - intros H s Hin Hk.
    apply (find_none _ _ H) in Hin. apply String.eqb_neq in Hin. auto.
  - intros H. induction (ExecutionPlan.steps plan) as [|s l IH]; trivial.
    simpl. destruct (String.eqb_spec (Step.key s) stepName) as [e|n].
    + exfalso. apply (H s); simpl; auto.
    + apply IH. intros s' Hin. apply H. simpl. auto.
Qed.

Lemma plannedHandles_spec (run : PipelineRunFragment.t) (step : Step.t) :
  plannedHandles run step = handlesOfInputs (Step.inputs step).
Proof.
  unfold plannedHandles. now rewrite collectStepOutputHandles_spec.
Qed.

Lemma submitted_carries_planned (props : IPipelineRunProps.t)
    (run : PipelineRunFragment.t)
    (mutation : MutationFn Config MutationResult) (stepName : string)
    (step : Step.t) (st : IPipelineRunState.t)
    (v : ReexecuteStepVariables.t Config) :
  IPipelineRunProps.run props = Some run ->
  findStep (PipelineRunFragment.executionPlan run) stepName = Some step ->
  In v (submitted
          (effects (onReexecuteStep yaml_parse props mutation stepName st))) ->
  reusedOutputs v = plannedHandles run step.
Proof.
  intros Hrun Hfind Hin.
  apply onReexecuteStep_submitted_inv in Hin
    as (run' & step' & config & Hrun' & Hfind' & _ & ->).
  assert (run' = run) as -> by congruence.
  assert (step' = step) as -> by congruence.
  now rewrite plannedHandles_spec.
Qed.

Lemma submitted_exists (props : IPipelineRunProps.t)
    (run : PipelineRunFragment.t)
    (mutation : MutationFn Config MutationResult) (stepName : string)
    (step : Step.t) (config : Config) (st : IPipelineRunState.t) :
  IPipelineRunProps.run props = Some run ->
  findStep (PipelineRunFragment.executionPlan run) stepName = Some step ->
  yaml_parse (PipelineRunFragment.config run) = Some config ->
  exists v,
    submitted (effects (onReexecuteStep yaml_parse props mutation stepName st))
    = [v].
Proof.
  intros Hrun Hfind Hyaml. exists (requestFor run stepName step config).
  now apply onReexecuteStep_submitted.
Qed.

(** C1 (as amended).  For a target step found in the plan, the planner
    records one handle for every pair of an input of the step and an output
    declared by that input's upstream step, namely
    [{ stepKey: input.dependsOn.key, outputName: output.name }]: the number
    of handles is the sum over the inputs of the number of outputs of their
    upstream step, which is the number of inputs when every upstream step
    declares exactly one output.  Every request submitted carries these
    handles, and one request is submitted when the configuration parses. *)
Theorem reusedOutputs_one_per_input_output
    (props : IPipelineRunProps.t) (run : PipelineRunFragment.t)
    (mutation : MutationFn Config MutationResult) (stepName : string)
    (step : Step.t) (st : IPipelineRunState.t) :
  IPipelineRunProps.run props = Some run ->
  findStep (PipelineRunFragment.executionPlan run) stepName = Some step ->
  length (plannedHandles run step)
  = list_sum (map upstreamOutputCount (Step.inputs step))
  /\ (forall h,
        In h (plannedHandles run step) <->
        exists input o,
          In input (Step.inputs step)
          /\ In o (DependsOn.outputs (StepInput.dependsOn input))
          /\ h = StepOutputHandle.mk
                   (DependsOn.key (StepInput.dependsOn input))
                   (StepOutput.name o))
  /\ ((forall input,
         In input (Step.inputs step) -> upstreamOutputCount input = 1) ->
      length (plannedHandles run step) = length (Step.inputs step))
  /\ (forall v,
        In v (submitted
                (effects
                   (onReexecuteStep yaml_parse props mutation stepName st))) ->
        reusedOutputs v = plannedHandles run step)
  /\ (forall config,
        yaml_parse (PipelineRunFragment.config run) = Some config ->
        exists v,
          submitted
            (effects (onReexecuteStep yaml_parse props mutation stepName st))
          = [v]).
Proof.
  intros Hrun Hfind. rewrite plannedHandles_spec. repeat split.
  - apply length_handlesOfInputs.
  - apply In_handlesOfInputs.
  - apply In_handlesOfInputs.
  - intros Hone. rewrite length_handlesOfInputs.
    now apply list_sum_all_ones.
  - intros v Hin. rewrite <- (plannedHandles_spec run).
    now apply (submitted_carries_planned props run mutation stepName step st).
  - intros config Hyaml. now apply (submitted_exists props run _ _ step config).
Qed.

(** C2.  The handles follow the declaration order of the target step's
    inputs and, within one input, the declaration order of the outputs of
    its upstream step; requests submitted for the same step name of the same
    execution plan carry the same handles; and for two inputs reading the
    single outputs "result" of A and "value" of B the handles are exactly
    [A/result; B/value]. *)
Theorem reusedOutputs_order
    (props : IPipelineRunProps.t) (run : PipelineRunFragment.t)
    (mutation : MutationFn Config MutationResult) (stepName : string)
    (step : Step.t) (st : IPipelineRunState.t) :
  IPipelineRunProps.run props = Some run ->
  findStep (PipelineRunFragment.executionPlan run) stepName = Some step ->
  plannedHandles run step
  = flat_map
      (fun input =>
         map (fun o =>
                StepOutputHandle.mk
                  (DependsOn.key (StepInput.dependsOn input))
                  (StepOutput.name o))
             (DependsOn.outputs (StepInput.dependsOn input)))
      (Step.inputs step)
  /\ (forall v,
        In v (submitted
                (effects
                   (onReexecuteStep yaml_parse props mutation stepName st))) ->
        reusedOutputs v = plannedHandles run step)
  /\ (forall props' run' (mutation' : MutationFn Config MutationResult)
             st' v v',
        IPipelineRunProps.run props' = Some run' ->
        PipelineRunFragment.executionPlan run'
        = PipelineRunFragment.executionPlan run ->
        In v (submitted
                (effects
                   (onReexecuteStep yaml_parse props mutation stepName st))) ->
        In v' (submitted
                 (effects
                    (onReexecuteStep yaml_parse props' mutation' stepName
                       st'))) ->
        reusedOutputs v' = reusedOutputs v)
  /\ (forall tA tB,
        Step.inputs step
        = [ StepInput.mk (DependsOn.mk "A" [StepOutput.mk "result" tA]);
            StepInput.mk (DependsOn.mk "B" [StepOutput.mk "value" tB]) ] ->
        plannedHandles run step
        = [ StepOutputHandle.mk "A" "result";
            StepOutputHandle.mk "B" "value" ]
        /\ length (plannedHandles run step) = 2)
  /\ (forall config,
        yaml_parse (PipelineRunFragment.config run) = Some config ->
        exists v,
          submitted
            (effects (onReexecuteStep yaml_parse props mutation stepName st))
          = [v]).
Proof.
  intros Hrun Hfind. split; [|split; [|split; [|split]]].
  - apply plannedHandles_spec.
  - intros v.
    apply (submitted_carries_planned props run mutation stepName step st);
      trivial.
  - intros props' run' mutation' st' v v' Hrun' Hplan Hv Hv'.
    rewrite <- Hplan in Hfind.
    rewrite (submitted_carries_planned _ _ _ _ _ _ _ Hrun' Hfind Hv').
    rewrite Hplan in Hfind.
    rewrite (submitted_carries_planned _ _ _ _ _ _ _ Hrun Hfind Hv).
    now rewrite !plannedHandles_spec.
  - intros tA tB Hin. rewrite plannedHandles_spec, Hin.
    split; reflexivity.
  - intros config Hyaml. now apply (submitted_exists props run _ _ step config).
Qed.

Lemma nth_error_le_list_sum {A : Type} (f : A -> nat) (l : list A) :
  forall n x, nth_error l n = Some x -> f x <= list_sum (map f l).
Proof.
  induction l as [|a l IH]; intros [|n] x H; simpl in *; try discriminate.
  - injection H as ->. lia.
  - specialize (IH n x H). lia.
Qed.

Lemma two_positions_list_sum {A : Type} (f : A -> nat) (l : list A) :
  forall a b x y,
    nth_error l a = Some x -> nth_error l b = Some y -> a <> b ->
    f x + f y <= list_sum (map f l).
Proof.
  induction l as [|c l IH]; intros [|a] [|b] x y Ha Hb Hab;
    simpl in *; try discriminate; try congruence.
  - injection Ha as ->. pose proof (nth_error_le_list_sum f l b y Hb). lia.
  - injection Hb as ->. pose proof (nth_error_le_list_sum f l a x Ha). lia.
  - assert (a <> b) as Hab' by congruence.
    specialize (IH a b x y Ha Hb Hab'). lia.
Qed.

Lemma count_occ_pos_of_In (l : list StepOutputHandle.t)
    (h : StepOutputHandle.t) :
  In h l -> 1 <= count_occ StepOutputHandle.eq_dec l h.
Proof. intros H. apply (count_occ_In StepOutputHandle.eq_dec) in H. lia. Qed.

Lemma isFailureOfStep_true (step : string) (node : LogNode) :
  isFailureOfStep step node = true <->
  exists s e,
    node = ExecutionStepFailureEvent (Some s) e /\ EventStep.name s = step.
Proof.
  unfold isFailureOfStep. split.
  - destruct node as [[s|] e|k s]; simpl.
    + intros H. apply String.eqb_eq in H. eauto.
    + discriminate.
    + destruct k; discriminate.
  - intros (s & e & -> & <-). simpl. apply String.eqb_refl.
Qed.

Lemma isFailureOfStep_false (step : string) (nodes : list LogNode) :
  (forall s e,
     In (ExecutionStepFailureEvent (Some s) e) nodes ->
     EventStep.name s <> step) ->
  forall node, In node nodes -> isFailureOfStep step node = false.
Proof.
  intros H node Hin.
  destruct (isFailureOfStep step node) eqn:E; trivial.
  apply isFailureOfStep_true in E as (s & e & -> & Hs).
  now destruct (H s e Hin).
Qed.

Lemma find_skips_prefix {A : Type} (p : A -> bool) (pre : list A) (x : A)
    (post : list A) :
  (forall a, In a pre -> p a = false) -> p x = true ->
  find p (pre ++ x :: post) = Some x.
Proof.
  induction pre as [|a pre IH]; simpl; intros Hpre Hx.
  - now rewrite Hx.
  - rewrite (Hpre a (or_introl eq_refl)). apply IH; auto.
Qed.

Lemma find_all_false {A : Type} (p : A -> bool) (l : list A) :
  (forall a, In a l -> p a = false) -> find p l = None.
Proof.
  induction l as [|a l IH]; simpl; intros H; trivial.
  rewrite (H a (or_introl eq_refl)). apply IH; auto.
Qed.

(** C3 (as amended).  When the target step key is the key of no step of the
    plan, the handler returns normally without raising or signalling any
    error, builds no request, submits nothing and leaves the state as it
    was. *)
Theorem unknown_step_is_silent
    (props : IPipelineRunProps.t) (run : PipelineRunFragment.t)
    (mutation : MutationFn Config MutationResult) (stepName : string)
    (st : IPipelineRunState.t) :
  IPipelineRunProps.run props = Some run ->
  (forall s,
     In s (ExecutionPlan.steps (PipelineRunFragment.executionPlan run)) ->
     Step.key s <> stepName) ->
  onReexecuteStep yaml_parse props mutation stepName st = silent st
  /\ submitted
       (effects (onReexecuteStep yaml_parse props mutation stepName st)) = []
  /\ completion (onReexecuteStep yaml_parse props mutation stepName st)
     = Returned tt.
Proof.
  intros Hrun Habsent. apply find_none_iff in Habsent.
  rewrite (onReexecuteStep_no_step _ _ _ _ _ Hrun Habsent).
  repeat split.
Qed.

(** C4.  The handles are not deduplicated: the number of times a handle
    occurs is the sum of the number of times each input contributes it, so
    when two inputs of the target step read the same output of the same
    upstream step, that handle occurs at least twice, in the planned handles
    and in every request submitted. *)
Theorem reusedOutputs_not_deduplicated
    (props : IPipelineRunProps.t) (run : PipelineRunFragment.t)
    (mutation : MutationFn Config MutationResult) (stepName : string)
    (step : Step.t) (st : IPipelineRunState.t)
    (a b : nat) (inputA inputB : StepInput.t) (oA oB : StepOutput.t)
    (k n : string) :
  IPipelineRunProps.run props = Some run ->
  findStep (PipelineRunFragment.executionPlan run) stepName = Some step ->
  nth_error (Step.inputs step) a = Some inputA ->
  nth_error (Step.inputs step) b = Some inputB ->
  a <> b ->
  DependsOn.key (StepInput.dependsOn inputA) = k ->
  DependsOn.key (StepInput.dependsOn inputB) = k ->
  In oA (DependsOn.outputs (StepInput.dependsOn inputA)) ->
  In oB (DependsOn.outputs (StepInput.dependsOn inputB)) ->
  StepOutput.name oA = n ->
  StepOutput.name oB = n ->
  (forall h,
     count_occ StepOutputHandle.eq_dec (plannedHandles run step) h
     = list_sum
         (map (fun input =>
                 count_occ StepOutputHandle.eq_dec (handlesOfInput input) h)
              (Step.inputs step)))
  /\ 2 <= count_occ StepOutputHandle.eq_dec (plannedHandles run step)
            (StepOutputHandle.mk k n)
  /\ (forall v,
        In v (submitted
                (effects
                   (onReexecuteStep yaml_parse props mutation stepName st))) ->
        2 <= count_occ StepOutputHandle.eq_dec (reusedOutputs v)
               (StepOutputHandle.mk k n))
  /\ (forall config,
        yaml_parse (PipelineRunFragment.config run) = Some config ->
        exists v,
          submitted
            (effects (onReexecuteStep yaml_parse props mutation stepName st))
          = [v]).
Proof.
  intros Hrun Hfind Ha Hb Hab HkA HkB HoA HoB HnA HnB.
  assert (2 <= count_occ StepOutputHandle.eq_dec (plannedHandles run step)
                 (StepOutputHandle.mk k n)) as Htwice.
  { rewrite plannedHandles_spec, count_occ_handlesOfInputs.
    pose proof
      (two_positions_list_sum
         (fun input =>
            count_occ StepOutputHandle.eq_dec (handlesOfInput input)
              (StepOutputHandle.mk k n))
         _ a b inputA inputB Ha Hb Hab) as Hsum.
    simpl in Hsum.
    assert (In (StepOutputHandle.mk k n) (handlesOfInput inputA)) as HinA.
    { unfold handlesOfInput. apply in_map_iff. exists oA.
      rewrite HkA, HnA. auto. }
    assert (In (StepOutputHandle.mk k n) (handlesOfInput inputB)) as HinB.
    { unfold handlesOfInput. apply in_map_iff. exists oB.
      rewrite HkB, HnB. auto. }
    apply count_occ_pos_of_In in HinA, HinB. lia. }
  split; [|split; [|split]].
  - intros h. rewrite plannedHandles_spec. apply count_occ_handlesOfInputs.
  - exact Htwice.
  - intros v Hin.
    now rewrite (submitted_carries_planned _ _ _ _ _ _ _ Hrun Hfind Hin).
  - intros config Hyaml. now apply (submitted_exists props run _ _ step config).
Qed.

(** C5 (as amended).  The handler never reads [artifactsPersisted]: for
    either value of the flag its outcome is the same, and for a step found
    in the plan of a run whose artifacts are not persisted the request is
    built as in the persisted case and its submission is the first call the
    handler makes; no warning is surfaced. *)
Theorem artifactsPersisted_not_consulted
    (run : PipelineRunFragment.t)
    (mutation : MutationFn Config MutationResult) (stepName : string)
    (st : IPipelineRunState.t) :
  (forall flag,
     onReexecuteStep yaml_parse
       (IPipelineRunProps.mk (Some (withArtifactsPersisted flag run)))
       mutation stepName st
     = onReexecuteStep yaml_parse
         (IPipelineRunProps.mk (Some run)) mutation stepName st)
  /\ (forall step config,
        ExecutionPlan.artifactsPersisted
          (PipelineRunFragment.executionPlan run) = false ->
        findStep (PipelineRunFragment.executionPlan run) stepName
        = Some step ->
        yaml_parse (PipelineRunFragment.config run) = Some config ->
        exists rest,
          effects
            (onReexecuteStep yaml_parse
               (IPipelineRunProps.mk (Some run)) mutation stepName st)
          = Mutation
              (requestFor (withArtifactsPersisted true run)
                 stepName step config)
            :: rest).
Proof.
  split.
  - intros flag. reflexivity.
  - intros step config _ Hfind Hyaml.
    rewrite (onReexecuteStep_found (IPipelineRunProps.mk (Some run)) run
               _ _ step config st eq_refl Hfind Hyaml).
    change (requestFor (withArtifactsPersisted true run) stepName step config)
      with (requestFor run stepName step config).
    destruct (mutation _); eexists; reflexivity.
Qed.

Lemma onShowStateDetails_found (props : IPipelineRunProps.t)
    (run : PipelineRunFragment.t) (step : string) (node : LogNode)
    (st : IPipelineRunState.t) :
  IPipelineRunProps.run props = Some run ->
  find (isFailureOfStep step) (Logs.nodes (PipelineRunFragment.logs run))
  = Some node ->
  onShowStateDetails (Config := Config) (MutationResult := MutationResult)
    props step st
  = mkOutcome []
      (IPipelineRunState.mk
         (IPipelineRunState.logsVW st)
         (IPipelineRunState.logsFilter st)
         (node_error node))
      (Returned tt).
Proof.
  intros Hrun Hfind. unfold onShowStateDetails. now rewrite Hrun, Hfind.
Qed.

Lemma onShowStateDetails_not_found (props : IPipelineRunProps.t)
    (run : PipelineRunFragment.t) (step : string)
    (st : IPipelineRunState.t) :
  IPipelineRunProps.run props = Some run ->
  find (isFailureOfStep step) (Logs.nodes (PipelineRunFragment.logs run))
  = None ->
  onShowStateDetails (Config := Config) (MutationResult := MutationResult)
    props step st
  = silent st.
Proof.
  intros Hrun Hfind. unfold onShowStateDetails. now rewrite Hrun, Hfind.
Qed.

(** C6.  The error lookup highlights the error of the first failure event,
    in log order, whose step name is the given key, changing nothing else;
    when the log has no such event it returns normally, without raising and
    without changing the state, the highlighted error included.  For the
    log [StepStart X; StepFailure X boom] the lookup of X highlights boom
    and the lookup of any other key changes nothing. *)
Theorem error_lookup_first_failure
    (props : IPipelineRunProps.t) (run : PipelineRunFragment.t)
    (step : string) (st : IPipelineRunState.t) :
  IPipelineRunProps.run props = Some run ->
  (forall pre s e post,
     Logs.nodes (PipelineRunFragment.logs run)
     = (pre ++ ExecutionStepFailureEvent (Some s) e :: post)%list ->
     EventStep.name s = step ->
     (forall s' e',
        In (ExecutionStepFailureEvent (Some s') e') pre ->
        EventStep.name s' <> step) ->
     onShowStateDetails (Config := Config) (MutationResult := MutationResult)
       props step st
     = mkOutcome []
         (IPipelineRunState.mk
            (IPipelineRunState.logsVW st)
            (IPipelineRunState.logsFilter st)
            (Some e))
         (Returned tt))
  /\ ((forall s e,
         In (ExecutionStepFailureEvent (Some s) e)
            (Logs.nodes (PipelineRunFragment.logs run)) ->
         EventStep.name s <> step) ->
      onShowStateDetails (Config := Config) (MutationResult := MutationResult)
        props step st
      = silent st)
  /\ (forall stack,
        Logs.nodes (PipelineRunFragment.logs run)
        = [ OtherEvent StepStart (Some (EventStep.mk "X"));
            ExecutionStepFailureEvent (Some (EventStep.mk "X"))
              (PythonError.mk "boom" stack) ] ->
        (step = "X" ->
         IPipelineRunState.highlightedError
           (state
              (onShowStateDetails (Config := Config)
                 (MutationResult := MutationResult) props step st))
         = Some (PythonError.mk "boom" stack))
        /\ (step <> "X" ->
            onShowStateDetails (Config := Config)
              (MutationResult := MutationResult) props step st
            = silent st)).
Proof.
  intros Hrun. split; [|split].
  - intros pre s e post Hlog Hs Hpre.
    rewrite (onShowStateDetails_found props run step
               (ExecutionStepFailureEvent (Some s) e) st Hrun); trivial.
    rewrite Hlog. apply find_skips_prefix.
    + now apply isFailureOfStep_false.
    + apply isFailureOfStep_true. eauto.
  - intros Hnone. apply (onShowStateDetails_not_found props run); trivial.
    apply find_all_false. now apply isFailureOfStep_false.
  - intros stack Hlog. split.
    + intros ->.
      rewrite (onShowStateDetails_found props run "X"
                 (ExecutionStepFailureEvent (Some (EventStep.mk "X"))
                    (PythonError.mk "boom" stack)) st Hrun); trivial.
      now rewrite Hlog.
    + intros Hne. apply (onShowStateDetails_not_found props run); trivial.
      apply find_all_false, isFailureOfStep_false. rewrite Hlog.
      intros s e [Hin|[Hin|[]]]; [discriminate|].
      injection Hin as <- _. simpl. congruence.
Qed.

(** C7.  Every request the re-execution handler submits for step name S
    carries [stepKeys] equal to the one-element list [S]: no upstream or
    downstream step is added. *)
Theorem stepKeys_exactly_target
    (props : IPipelineRunProps.t)
    (mutation : MutationFn Config MutationResult) (stepName : string)
    (st : IPipelineRunState.t) (v : ReexecuteStepVariables.t Config) :
  In v (submitted
          (effects (onReexecuteStep yaml_parse props mutation stepName st))) ->
  ReexecuteStepVariables.stepKeys v = [stepName].
Proof.
  intros Hin.
  apply onReexecuteStep_submitted_inv in Hin
    as (run & step & config & _ & _ & _ & ->).
  reflexivity.
Qed.

(** C8.  Dismissing the error dialog sets the highlighted error to none and
    leaves the filter and the split ratio as they were; it calls nothing
    outside the component and returns normally. *)
Theorem dismiss_clears_only_highlightedError (st : IPipelineRunState.t) :
  let after :=
    onClose (Config := Config) (MutationResult := MutationResult) st in
  IPipelineRunState.highlightedError (state after) = None
  /\ IPipelineRunState.logsFilter (state after)
     = IPipelineRunState.logsFilter st
  /\ IPipelineRunState.logsVW (state after) = IPipelineRunState.logsVW st
  /\ effects after = []
  /\ completion after = Returned tt.
Proof. repeat split. Qed.

(** C9.  With no run loaded, the re-execution handler and the error lookup
    do nothing: no request is built or submitted, nothing is raised and the
    state is unchanged. *)
Theorem no_run_handlers_are_noops
    (mutation : MutationFn Config MutationResult) (stepName : string)
    (st : IPipelineRunState.t) :
  let reexecute :=
    onReexecuteStep yaml_parse (IPipelineRunProps.mk None)
      mutation stepName st in
  let lookup :=
    onShowStateDetails (Config := Config) (MutationResult := MutationResult)
      (IPipelineRunProps.mk None) stepName st in
  (effects reexecute = [] /\ submitted (effects reexecute) = []
   /\ state reexecute = st /\ completion reexecute = Returned tt)
  /\ (effects lookup = [] /\ state lookup = st
      /\ completion lookup = Returned tt).
Proof. repeat split. Qed.

(** C10.  Applying the step filter for step name S sets the text of the
    filter to "step:" followed by S and keeps the other fields of the
    filter the callback was built from; fired on the state that was
    rendered, it keeps every other field of the current filter, the split
    ratio and the highlighted error. *)
Theorem apply_step_filter_replaces_only_text
    (st : IPipelineRunState.t) (stepName : string) :
  (forall rendered : ILogFilter.t,
     let after :=
       onApplyStepFilter (Config := Config) (MutationResult := MutationResult)
         rendered stepName st in
     ILogFilter.text (IPipelineRunState.logsFilter (state after))
     = "step:" ++ stepName
     /\ ILogFilter.levels (IPipelineRunState.logsFilter (state after))
        = ILogFilter.levels rendered
     /\ ILogFilter.sinceStepKey (IPipelineRunState.logsFilter (state after))
        = ILogFilter.sinceStepKey rendered)
  /\ (let after :=
        onApplyStepFilter (Config := Config) (MutationResult := MutationResult)
          (IPipelineRunState.logsFilter st) stepName st in
      ILogFilter.text (IPipelineRunState.logsFilter (state after))
      = "step:" ++ stepName
      /\ ILogFilter.levels (IPipelineRunState.logsFilter (state after))
         = ILogFilter.levels (IPipelineRunState.logsFilter st)
      /\ ILogFilter.sinceStepKey (IPipelineRunState.logsFilter (state after))
         = ILogFilter.sinceStepKey (IPipelineRunState.logsFilter st)
      /\ IPipelineRunState.logsVW (state after) = IPipelineRunState.logsVW st
      /\ IPipelineRunState.highlightedError (state after)
         = IPipelineRunState.highlightedError st
      /\ effects after = []
      /\ completion after = Returned tt).
Proof. repeat split. Qed.

End Properties.

(** ** The properties at the sample data *)

Lemma reusedOutputs_one_per_input_output_witness :
  IPipelineRunProps.run (sampleProps stepsTwoOutputs true)
  = Some (sampleRun stepsTwoOutputs true)
  /\ findStep (ExecutionPlan.mk stepsTwoOutputs true) "T"
     = Some stepTwoOutputs
  /\ length (plannedHandles (sampleRun stepsTwoOutputs true) stepTwoOutputs)
     = 2
  /\ exists v,
       submitted
         (effects
            (onReexecuteStep sampleYamlParse (sampleProps stepsTwoOutputs true)
               sampleMutation "T" sampleState))
       = [v].
Proof.
  split; [reflexivity|]. split; [reflexivity|].
  destruct
    (reusedOutputs_one_per_input_output string string sampleYamlParse
       (sampleProps stepsTwoOutputs true) (sampleRun stepsTwoOutputs true)
       sampleMutation "T" stepTwoOutputs sampleState eq_refl eq_refl)
    as (Hlen & _ & _ & _ & Hsub).
  split; [exact Hlen | exact (Hsub "solids: {}" eq_refl)].
Defined.

(** The request for a step with one input whose upstream step declares two
    outputs carries two handles, not one. *)
Lemma one_entry_per_input_counterexample :
  findStep (ExecutionPlan.mk stepsTwoOutputs true) "T" = Some stepTwoOutputs
  /\ length (Step.inputs stepTwoOutputs) = 1
  /\ plannedHandles (sampleRun stepsTwoOutputs true) stepTwoOutputs
     = [StepOutputHandle.mk "A" "x"; StepOutputHandle.mk "A" "y"]
  /\ submitted
       (effects
          (onReexecuteStep sampleYamlParse (sampleProps stepsTwoOutputs true)
             sampleMutation "T" sampleState))
     = [sampleRequest stepTwoOutputs]
  /\ reusedOutputs (sampleRequest stepTwoOutputs)
     = [StepOutputHandle.mk "A" "x"; StepOutputHandle.mk "A" "y"]
  /\ length (reusedOutputs (sampleRequest stepTwoOutputs))
     <> length (Step.inputs stepTwoOutputs).
Proof. repeat split; try reflexivity. discriminate. Qed.

Lemma reusedOutputs_order_witness :
  IPipelineRunProps.run (sampleProps stepsTwoInputs true)
  = Some (sampleRun stepsTwoInputs true)
  /\ findStep (ExecutionPlan.mk stepsTwoInputs true) "T" = Some stepTwoInputs
  /\ plannedHandles (sampleRun stepsTwoInputs true) stepTwoInputs
     = [StepOutputHandle.mk "A" "result"; StepOutputHandle.mk "B" "value"]
  /\ length (plannedHandles (sampleRun stepsTwoInputs true) stepTwoInputs) = 2
  /\ exists v,
       submitted
         (effects
            (onReexecuteStep sampleYamlParse (sampleProps stepsTwoInputs true)
               sampleMutation "T" sampleState))
       = [v].
Proof.
  split; [reflexivity|]. split; [reflexivity|].
  destruct
    (reusedOutputs_order string string sampleYamlParse
       (sampleProps stepsTwoInputs true) (sampleRun stepsTwoInputs true)
       sampleMutation "T" stepTwoInputs sampleState eq_refl eq_refl)
    as (_ & _ & _ & Hexample & Hsub).
  destruct (Hexample anyType anyType eq_refl) as [Hexact Hlen].
  split; [exact Hexact|]. split; [exact Hlen|].
  exact (Hsub "solids: {}" eq_refl).
Defined.

Lemma unknown_step_is_silent_witness :
  IPipelineRunProps.run (sampleProps stepsTwoInputs true)
  = Some (sampleRun stepsTwoInputs true)
  /\ (forall s, In s stepsTwoInputs -> Step.key s <> "missing")
  /\ onReexecuteStep sampleYamlParse (sampleProps stepsTwoInputs true)
       sampleMutation "missing" sampleState
     = silent sampleState.
Proof.
  assert (forall s, In s stepsTwoInputs -> Step.key s <> "missing") as Habsent.
  { intros s [<-|[<-|[<-|[]]]]; discriminate. }
  split; [reflexivity|]. split; [exact Habsent|].
  exact
    (proj1
       (unknown_step_is_silent string string sampleYamlParse
          (sampleProps stepsTwoInputs true) (sampleRun stepsTwoInputs true)
          sampleMutation "missing" sampleState eq_refl Habsent)).
Defined.

(** For a step key that is not in the plan the handler completes normally:
    it does not fail with an error. *)
Lemma unknown_step_raises_counterexample :
  (forall s, In s stepsTwoInputs -> Step.key s <> "missing")
  /\ completion
       (onReexecuteStep sampleYamlParse (sampleProps stepsTwoInputs true)
          sampleMutation "missing" sampleState)
     = Returned tt
  /\ ~ (exists e,
          completion
            (onReexecuteStep sampleYamlParse (sampleProps stepsTwoInputs true)
               sampleMutation "missing" sampleState)
          = Thrown e).
Proof.
  split; [|split].
  - intros s [<-|[<-|[<-|[]]]]; discriminate.
  - reflexivity.
  - intros [e He]. discriminate He.
Qed.

Lemma reusedOutputs_not_deduplicated_witness :
  nth_error (Step.inputs stepSharedUpstream) 0 = Some (StepInput.mk upstreamA)
  /\ nth_error (Step.inputs stepSharedUpstream) 1
     = Some (StepInput.mk upstreamA)
  /\ 2 <= count_occ StepOutputHandle.eq_dec
            (plannedHandles (sampleRun stepsSharedUpstream true)
               stepSharedUpstream)
            (StepOutputHandle.mk "A" "result")
  /\ exists v,
       submitted
         (effects
            (onReexecuteStep sampleYamlParse
               (sampleProps stepsSharedUpstream true)
               sampleMutation "T" sampleState))
       = [v].
Proof.
  split; [reflexivity|]. split; [reflexivity|].
  destruct
    (reusedOutputs_not_deduplicated string string sampleYamlParse
       (sampleProps stepsSharedUpstream true)
       (sampleRun stepsSharedUpstream true)
       sampleMutation "T" stepSharedUpstream sampleState
       0 1 (StepInput.mk upstreamA) (StepInput.mk upstreamA)
       (StepOutput.mk "result" anyType) (StepOutput.mk "result" anyType)
       "A" "result"
       eq_refl eq_refl eq_refl eq_refl (n_Sn 0) eq_refl eq_refl
       (or_introl eq_refl) (or_introl eq_refl) eq_refl eq_refl)
    as (_ & Hcount & _ & Hsub).
  split; [exact Hcount | exact (Hsub "solids: {}" eq_refl)].
Defined.

Lemma artifactsPersisted_not_consulted_witness :
  ExecutionPlan.artifactsPersisted
    (PipelineRunFragment.executionPlan (sampleRun stepsTwoInputs false))
  = false
  /\ findStep (ExecutionPlan.mk stepsTwoInputs false) "T"
     = Some stepTwoInputs
  /\ sampleYamlParse "solids: {}" = Some "solids: {}"
  /\ exists rest,
       effects
         (onReexecuteStep sampleYamlParse (sampleProps stepsTwoInputs false)
            sampleMutation "T" sampleState)
       = Mutation (sampleRequest stepTwoInputs) :: rest.
Proof.
  split; [reflexivity|]. split; [reflexivity|]. split; [reflexivity|].
  exact
    (proj2
       (artifactsPersisted_not_consulted string string sampleYamlParse
          (sampleRun stepsTwoInputs false) sampleMutation "T" sampleState)
       stepTwoInputs "solids: {}" eq_refl eq_refl eq_refl).
Defined.

(** With the artifacts not persisted the handler does what it does when they
    are: its first and only outgoing call before the result is handled is
    the submission, and nothing distinguishes the two outcomes. *)
Lemma artifacts_warning_counterexample :
  ExecutionPlan.artifactsPersisted
    (PipelineRunFragment.executionPlan (sampleRun stepsTwoInputs false))
  = false
  /\ onReexecuteStep sampleYamlParse (sampleProps stepsTwoInputs false)
       sampleMutation "T" sampleState
     = onReexecuteStep sampleYamlParse (sampleProps stepsTwoInputs true)
         sampleMutation "T" sampleState
  /\ onReexecuteStep sampleYamlParse (sampleProps stepsTwoInputs false)
       sampleMutation "T" sampleState
     = mkOutcome
         [ Mutation (sampleRequest stepTwoInputs);
           HandleStartExecutionResult "pipe" "started" ]
         sampleState (Returned tt).
Proof. repeat split. Qed.

Lemma error_lookup_first_failure_witness :
  IPipelineRunProps.run (sampleProps stepsTwoInputs true)
  = Some (sampleRun stepsTwoInputs true)
  /\ onShowStateDetails (Config := string) (MutationResult := string)
       (sampleProps stepsTwoInputs true) "X" sampleState
     = mkOutcome []
         (IPipelineRunState.mk 75 sampleFilter (Some boom)) (Returned tt)
  /\ onShowStateDetails (Config := string) (MutationResult := string)
       (sampleProps stepsTwoInputs true) "Y" sampleState
     = silent sampleState.
Proof.
  split; [reflexivity|]. split.
  - refine
      (proj1
         (error_lookup_first_failure string string
            (sampleProps stepsTwoInputs true) (sampleRun stepsTwoInputs true)
            "X" sampleState eq_refl)
         [OtherEvent StepStart (Some (EventStep.mk "X"))]
         (EventStep.mk "X") boom [] eq_refl eq_refl _).
    intros s' e' [H|[]]. discriminate H.
  - refine
      (proj1 (proj2
         (error_lookup_first_failure string string
            (sampleProps stepsTwoInputs true) (sampleRun stepsTwoInputs true)
            "Y" sampleState eq_refl)) _).
    intros s e [H|[H|[]]]; [discriminate H|].
    injection H as <- _. discriminate.
Defined.

Lemma stepKeys_exactly_target_witness :
  In (sampleRequest stepTwoInputs)
     (submitted
        (effects
           (onReexecuteStep sampleYamlParse (sampleProps stepsTwoInputs true)
              sampleMutation "T" sampleState)))
  /\ ReexecuteStepVariables.stepKeys (sampleRequest stepTwoInputs) = ["T"].
Proof.
  split; [left; reflexivity|].
  apply
    (stepKeys_exactly_target string string sampleYamlParse
       (sampleProps stepsTwoInputs true) sampleMutation "T" sampleState).
  left. reflexivity.
Defined.

(** ** Further properties of the handlers *)

Section FurtherProperties.

Variable Config : Type.
Variable MutationResult : Type.
Variable yaml_parse : string -> option Config.

Lemma onReexecuteStep_cases (props : IPipelineRunProps.t)
    (mutation : MutationFn Config MutationResult) (stepName : string)
    (st : IPipelineRunState.t) :
  onReexecuteStep yaml_parse props mutation stepName st = silent st
  \/ (exists run step,
        IPipelineRunProps.run props = Some run
        /\ findStep (PipelineRunFragment.executionPlan run) stepName
           = Some step
        /\ yaml_parse (PipelineRunFragment.config run) = None
        /\ onReexecuteStep yaml_parse props mutation stepName st
           = mkOutcome [] st (Thrown YAMLParseError))
  \/ (exists run step config,
        IPipelineRunProps.run props = Some run
        /\ findStep (PipelineRunFragment.executionPlan run) stepName
           = Some step
        /\ yaml_parse (PipelineRunFragment.config run) = Some config
        /\ mutation (requestFor run stepName step config) = None
        /\ onReexecuteStep yaml_parse props mutation stepName st
           = mkOutcome [Mutation (requestFor run stepName step config)] st
               (Thrown MutationRejected))
  \/ (exists run step config result,
        IPipelineRunProps.run props = Some run
        /\ findStep (PipelineRunFragment.executionPlan run) stepName
           = Some step
        /\ yaml_parse (PipelineRunFragment.config run) = Some config
        /\ mutation (requestFor run stepName step config) = Some result
        /\ onReexecuteStep yaml_parse props mutation stepName st
           = mkOutcome
               [ Mutation (requestFor run stepName step config);
                 HandleStartExecutionResult
                   (Pipeline.name (PipelineRunFragment.pipeline run))
                   result ]
               st (Returned tt)).
Proof.
  destruct props as [[run|]]; [|left; reflexivity].
  destruct (findStep (PipelineRunFragment.executionPlan run) stepName)
    as [step|] eqn:Hfind.
  2: { left. now apply (onReexecuteStep_no_step _ _ _ _ run). }
  destruct (yaml_parse (PipelineRunFragment.config run)) as [config|] eqn:Hy.
  2: { right; left. exists run, step. repeat split; trivial.
       now apply (onReexecuteStep_bad_config _ _ _ _ run _ _ step). }
  pose proof
    (onReexecuteStep_found Config MutationResult yaml_parse
       (IPipelineRunProps.mk (Some run)) run mutation stepName step config st
       eq_refl Hfind Hy) as Hfound.
  destruct (mutation (requestFor run stepName step config))
    as [result|] eqn:Hm.
  - right; right; right. exists run, step, config, result. auto.
  - right; right; left. exists run, step, config. auto.
Qed.

Lemma findStep_of_member (plan : ExecutionPlan.t) (s : Step.t) :
  In s (ExecutionPlan.steps plan) ->
  exists step,
    findStep plan (Step.key s) = Some step
    /\ Step.key step = Step.key s
    /\ In step (ExecutionPlan.steps plan).
Proof.
  intros Hin. unfold findStep.
  destruct (find (fun s0 => String.eqb (Step.key s0) (Step.key s))
              (ExecutionPlan.steps plan)) as [step|] eqn:Hfind.
  - exists step. apply find_some in Hfind as [Hmem Hkey].
    apply String.eqb_eq in Hkey. auto.
  - apply (find_none _ _ Hfind) in Hin.
    now rewrite String.eqb_refl in Hin.
Qed.

Lemma findStep_member (plan : ExecutionPlan.t) (stepName : string)
    (step : Step.t) :
  findStep plan stepName = Some step ->
  In step (ExecutionPlan.steps plan) /\ Step.key step = stepName.
Proof.
  unfold findStep. intros Hfind. apply find_some in Hfind as [Hmem Hkey].
  apply String.eqb_eq in Hkey. auto.
Qed.

(** X1.  The re-execution handler never changes the component state,
    whichever way it ends: no run, unknown step, malformed configuration,
    rejected or resolved mutation. *)
Theorem reexecute_never_changes_state
    (props : IPipelineRunProps.t)
    (mutation : MutationFn Config MutationResult) (stepName : string)
    (st : IPipelineRunState.t) :
  state (onReexecuteStep yaml_parse props mutation stepName st) = st.
Proof.
  destruct (onReexecuteStep_cases props mutation stepName st)
    as [H|[(run & step & _ & _ & _ & H)
          |[(run & step & config & _ & _ & _ & _ & H)
           |(run & step & config & result & _ & _ & _ & _ & H)]]];
    now rewrite H.
Qed.

(** X2.  When the plan has a step with the requested key but the run's
    configuration does not parse, the handler throws the parse error before
    anything leaves the component: no request is submitted and the result
    handler is not called. *)
Theorem reexecute_malformed_config_submits_nothing
    (props : IPipelineRunProps.t) (run : PipelineRunFragment.t)
    (mutation : MutationFn Config MutationResult) (s : Step.t)
    (st : IPipelineRunState.t) :
  IPipelineRunProps.run props = Some run ->
  In s (ExecutionPlan.steps (PipelineRunFragment.executionPlan run)) ->
  yaml_parse (PipelineRunFragment.config run) = None ->
  onReexecuteStep yaml_parse props mutation (Step.key s) st
  = mkOutcome [] st (Thrown YAMLParseError).
Proof.
  intros Hrun Hin Hyaml.
  destruct (findStep_of_member _ s Hin) as (step & Hfind & _ & _).
  now apply (onReexecuteStep_bad_config _ _ _ _ run _ _ step).
Qed.

(** X3.  When the mutation's promise rejects, the request has been
    submitted, the rejection propagates out of the handler and
    [handleStartExecutionResult] is never called. *)
Theorem reexecute_rejected_mutation_skips_result_handler
    (props : IPipelineRunProps.t) (run : PipelineRunFragment.t)
    (mutation : MutationFn Config MutationResult) (stepName : string)
    (step : Step.t) (config : Config) (st : IPipelineRunState.t) :
  IPipelineRunProps.run props = Some run ->
  findStep (PipelineRunFragment.executionPlan run) stepName = Some step ->
  yaml_parse (PipelineRunFragment.config run) = Some config ->
  mutation (requestFor run stepName step config) = None ->
  completion (onReexecuteStep yaml_parse props mutation stepName st)
  = Thrown MutationRejected
  /\ submitted
       (effects (onReexecuteStep yaml_parse props mutation stepName st))
     = [requestFor run stepName step config]
  /\ (forall name result,
        ~ In (HandleStartExecutionResult name result)
             (effects
                (onReexecuteStep yaml_parse props mutation stepName st))).
Proof.
  intros Hrun Hfind Hyaml Hrej.
  rewrite (onReexecuteStep_found _ _ _ _ _ _ _ _ _ _ Hrun Hfind Hyaml), Hrej.
  repeat split. intros name result [H|[]]. discriminate H.
Qed.

(** X4.  [handleStartExecutionResult] is only ever called as the last step
    of a successful submission: with the name of the run's pipeline and the
    very result the mutation resolved to for the request just submitted. *)
Theorem result_handler_only_after_resolved_mutation
    (props : IPipelineRunProps.t)
    (mutation : MutationFn Config MutationResult) (stepName : string)
    (st : IPipelineRunState.t) (name : string) (result : MutationResult) :
  In (HandleStartExecutionResult name result)
     (effects (onReexecuteStep yaml_parse props mutation stepName st)) ->
  exists run v,
    IPipelineRunProps.run props = Some run
    /\ name = Pipeline.name (PipelineRunFragment.pipeline run)
    /\ mutation v = Some result
    /\ effects (onReexecuteStep yaml_parse props mutation stepName st)
       = [Mutation v; HandleStartExecutionResult name result]
    /\ completion (onReexecuteStep yaml_parse props mutation stepName st)
       = Returned tt.
Proof.
  destruct (onReexecuteStep_cases props mutation stepName st)
    as [H|[(run & step & _ & _ & _ & H)
          |[(run & step & config & _ & _ & _ & _ & H)
           |(run & step & config & r & Hrun & _ & _ & Hm & H)]]];
    rewrite H; simpl.
  - tauto.
  - tauto.
  - intros [Hin|[]]. discriminate Hin.
  - intros [Hin|[Hin|[]]]; [discriminate Hin|].
    injection Hin as <- <-.
    exists run, (requestFor run stepName step config). auto.
Qed.

(** X5.  One call of the re-execution handler submits at most one request,
    and when it submits one, the submission is the first call that leaves
    the component. *)
Theorem reexecute_submits_at_most_once
    (props : IPipelineRunProps.t)
    (mutation : MutationFn Config MutationResult) (stepName : string)
    (st : IPipelineRunState.t) :
  length
    (submitted
       (effects (onReexecuteStep yaml_parse props mutation stepName st)))
  <= 1
  /\ (forall v,
        In v (submitted
                (effects
                   (onReexecuteStep yaml_parse props mutation stepName st))) ->
        exists rest,
          effects (onReexecuteStep yaml_parse props mutation stepName st)
          = Mutation v :: rest).
Proof.
  destruct (onReexecuteStep_cases props mutation stepName st)
    as [H|[(run & step & _ & _ & _ & H)
          |[(run & step & config & _ & _ & _ & _ & H)
           |(run & step & config & r & _ & _ & _ & _ & H)]]];
    rewrite H; simpl; (split; [lia|]); intros v Hin.
  - destruct Hin.
  - destruct Hin.
  - destruct Hin as [<-|[]]. eauto.
  - destruct Hin as [<-|[]]. eauto.
Qed.

(** X6.  Every request submitted is filled from the loaded run: its
    [previousRunId] is the run's id, its mode the run's mode, its pipeline
    name the run's pipeline name, its solid subset the names of all solids
    of the pipeline in their order, and its config what [yaml.parse] made of
    the run's configuration text. *)
Theorem submitted_request_is_filled_from_run
    (props : IPipelineRunProps.t)
    (mutation : MutationFn Config MutationResult) (stepName : string)
    (st : IPipelineRunState.t) (v : ReexecuteStepVariables.t Config) :
  In v (submitted
          (effects (onReexecuteStep yaml_parse props mutation stepName st))) ->
  exists run,
    IPipelineRunProps.run props = Some run
    /\ ReexecutionConfig.previousRunId
         (ReexecuteStepVariables.reexecutionConfig v)
       = PipelineRunFragment.runId run
    /\ ReexecuteStepVariables.mode v = PipelineRunFragment.mode run
    /\ ExecutionSelector.name (ReexecuteStepVariables.pipeline v)
       = Pipeline.name (PipelineRunFragment.pipeline run)
    /\ ExecutionSelector.solidSubset (ReexecuteStepVariables.pipeline v)
       = map Solid.name (Pipeline.solids (PipelineRunFragment.pipeline run))
    /\ yaml_parse (PipelineRunFragment.config run)
       = Some (ReexecuteStepVariables.config v).
Proof.
  intros Hin.
  apply onReexecuteStep_submitted_inv in Hin
    as (run & step & config & Hrun & _ & Hyaml & ->).
  exists run. repeat split; trivial.
Qed.

Lemma handlesOfInputs_nil_iff (inputs : list StepInput.t) :
  handlesOfInputs inputs = [] <->
  (forall input,
     In input inputs -> DependsOn.outputs (StepInput.dependsOn input) = []).
Proof.
  induction inputs as [|i inputs IH]; simpl.
  - split; [intros _ input []|trivial].
  - split.
    + intros H. apply app_eq_nil in H as [Hi Hrest].
      intros input [<-|Hin].
      * unfold handlesOfInput in Hi. now apply map_eq_nil in Hi.
      * now apply IH.
    + intros H. unfold handlesOfInput at 1.
      rewrite (H i (or_introl eq_refl)). simpl.
      apply IH. intros input Hin. apply H. now right.
Qed.

(** X7.  When several steps of the plan carry the requested key, the first
    one in plan order is re-executed: the handles of every request
    submitted are those of that first step, whatever the later steps with
    the same key read. *)
Theorem first_step_with_key_is_planned
    (props : IPipelineRunProps.t) (run : PipelineRunFragment.t)
    (mutation : MutationFn Config MutationResult) (stepName : string)
    (pre post : list Step.t) (step : Step.t) (st : IPipelineRunState.t) :
  IPipelineRunProps.run props = Some run ->
  ExecutionPlan.steps (PipelineRunFragment.executionPlan run)
  = (pre ++ step :: post)%list ->
  Step.key step = stepName ->
  (forall s, In s pre -> Step.key s <> stepName) ->
  forall v,
    In v (submitted
            (effects (onReexecuteStep yaml_parse props mutation stepName st))) ->
    reusedOutputs v = plannedHandles run step.
Proof.
  intros Hrun Hsteps Hkey Hpre v Hin.
  apply (submitted_carries_planned Config MutationResult yaml_parse
           props run mutation stepName step st); trivial.
  unfold findStep. rewrite Hsteps. apply find_skips_prefix.
  - intros s Hs. apply String.eqb_neq. now apply Hpre.
  - now apply String.eqb_eq.
Qed.

(** X8.  The planned handles are empty exactly when no input of the step
    has an upstream step that declares an output, in particular for a step
    without inputs; such a step is still submitted, with an empty list of
    handles, when the configuration parses. *)
Theorem planned_handles_empty_iff
    (props : IPipelineRunProps.t) (run : PipelineRunFragment.t)
    (mutation : MutationFn Config MutationResult) (stepName : string)
    (step : Step.t) (st : IPipelineRunState.t) :
  IPipelineRunProps.run props = Some run ->
  findStep (PipelineRunFragment.executionPlan run) stepName = Some step ->
  (plannedHandles run step = [] <->
   (forall input,
      In input (Step.inputs step) ->
      DependsOn.outputs (StepInput.dependsOn input) = []))
  /\ (Step.inputs step = [] -> plannedHandles run step = [])
  /\ (forall config,
        yaml_parse (PipelineRunFragment.config run) = Some config ->
        plannedHandles run step = [] ->
        exists v,
          submitted
            (effects (onReexecuteStep yaml_parse props mutation stepName st))
          = [v]
          /\ reusedOutputs v = []).
Proof.
  intros Hrun Hfind. rewrite plannedHandles_spec. split; [|split].
  - apply handlesOfInputs_nil_iff.
  - intros ->. reflexivity.
  - intros config Hyaml Hempty.
    exists (requestFor run stepName step config). split.
    + now apply onReexecuteStep_submitted.
    + exact Hempty.
Qed.

(** X9.  The loops of the planner only append: started on a configuration
    that already lists handles they keep its run id and its handles, in
    order, and add the handles of the step after them; and the handles of a
    step are those of any first part of its inputs followed by those of the
    rest, whatever the run and the step key. *)
Theorem planner_loops_only_append
    (run run' : PipelineRunFragment.t) (step : Step.t)
    (cfg : ReexecutionConfig.t) (k k' : string)
    (inputs1 inputs2 : list StepInput.t) :
  ReexecutionConfig.previousRunId (collectStepOutputHandles step cfg)
  = ReexecutionConfig.previousRunId cfg
  /\ ReexecutionConfig.stepOutputHandles (collectStepOutputHandles step cfg)
     = (ReexecutionConfig.stepOutputHandles cfg
          ++ plannedHandles run step)%list
  /\ plannedHandles run (Step.mk k (inputs1 ++ inputs2))
     = (plannedHandles run' (Step.mk k' inputs1)
          ++ plannedHandles run' (Step.mk k' inputs2))%list.
Proof.
  rewrite !plannedHandles_spec. unfold collectStepOutputHandles.
  rewrite forEach_inputs. simpl. repeat split.
  unfold handlesOfInputs. apply flat_map_app.
Qed.

(** X10.  The re-execution handler reads neither the event log nor the
    component state: with other log nodes and from another state it makes
    the same calls and ends the same way. *)
Theorem reexecute_reads_neither_log_nor_state
    (run : PipelineRunFragment.t) (nodes : list LogNode)
    (mutation : MutationFn Config MutationResult) (stepName : string)
    (st st' : IPipelineRunState.t) :
  effects
    (onReexecuteStep yaml_parse
       (IPipelineRunProps.mk (Some (withLogs nodes run)))
       mutation stepName st')
  = effects
      (onReexecuteStep yaml_parse
         (IPipelineRunProps.mk (Some run)) mutation stepName st)
  /\ completion
       (onReexecuteStep yaml_parse
          (IPipelineRunProps.mk (Some (withLogs nodes run)))
          mutation stepName st')
     = completion
         (onReexecuteStep yaml_parse
            (IPipelineRunProps.mk (Some run)) mutation stepName st).
Proof.
  destruct (findStep (PipelineRunFragment.executionPlan run) stepName)
    as [step|] eqn:Hfind.
  2: { rewrite (onReexecuteStep_no_step _ _ _ _ (withLogs nodes run))
         by easy.
       rewrite (onReexecuteStep_no_step _ _ _ _ run) by easy.
       split; reflexivity. }
  destruct (yaml_parse (PipelineRunFragment.config run)) as [config|] eqn:Hy.
  2: { rewrite
         (onReexecuteStep_bad_config _ _ _ _ (withLogs nodes run) _ _ step)
         by easy.
       rewrite (onReexecuteStep_bad_config _ _ _ _ run _ _ step) by easy.
       split; reflexivity. }
  rewrite
    (onReexecuteStep_found _ _ _ _ (withLogs nodes run) _ _ step config st')
    by easy.
  rewrite (onReexecuteStep_found _ _ _ _ run _ _ step config st) by easy.
  change (requestFor (withLogs nodes run) stepName step config)
    with (requestFor run stepName step config).
  simpl. destruct (mutation _); split; reflexivity.
Qed.

Lemma onShowStateDetails_unfold (run : PipelineRunFragment.t)
    (step : string) (st : IPipelineRunState.t) :
  onShowStateDetails (Config := Config) (MutationResult := MutationResult)
    (IPipelineRunProps.mk (Some run)) step st
  = match find (isFailureOfStep step)
            (Logs.nodes (PipelineRunFragment.logs run)) with
    | Some node =>
        mkOutcome []
          (IPipelineRunState.mk
             (IPipelineRunState.logsVW st)
             (IPipelineRunState.logsFilter st)
             (node_error node))
          (Returned tt)
    | None => silent st
    end.
Proof.
  unfold onShowStateDetails. simpl.
  destruct (find _ _); reflexivity.
Qed.

Lemma onShowStateDetails_cases (props : IPipelineRunProps.t)
    (step : string) (st : IPipelineRunState.t) :
  onShowStateDetails (Config := Config) (MutationResult := MutationResult)
    props step st
  = silent st
  \/ exists run s e,
       IPipelineRunProps.run props = Some run
       /\ find (isFailureOfStep step)
               (Logs.nodes (PipelineRunFragment.logs run))
          = Some (ExecutionStepFailureEvent (Some s) e)
       /\ EventStep.name s = step
       /\ onShowStateDetails (Config := Config)
            (MutationResult := MutationResult) props step st
          = mkOutcome []
              (IPipelineRunState.mk
                 (IPipelineRunState.logsVW st)
                 (IPipelineRunState.logsFilter st)
                 (Some e))
              (Returned tt).
Proof.
  destruct props as [[run|]]; [|left; reflexivity].
  rewrite onShowStateDetails_unfold.
  destruct (find (isFailureOfStep step)
              (Logs.nodes (PipelineRunFragment.logs run)))
    as [node|] eqn:Hfind; [|left; reflexivity].
  right. pose proof (find_some _ _ Hfind) as [_ Hp].
  apply isFailureOfStep_true in Hp as (s & e & -> & Hs).
  exists run, s, e. auto.
Qed.

Lemma find_append {A : Type} (p : A -> bool) (l m : list A) :
  find p (l ++ m)
  = match find p l with
    | Some x => Some x
    | None => find p m
    end.
Proof.
  induction l as [|a l IH]; simpl; trivial.
  destruct (p a); trivial.
Qed.

Lemma find_filter_implied {A : Type} (p q : A -> bool) (l : list A) :
  (forall x, p x = true -> q x = true) ->
  find p (filter q l) = find p l.
Proof.
  intros Himp. induction l as [|a l IH]; simpl; trivial.
  destruct (q a) eqn:Hq; simpl.
  - now rewrite IH.
  - destruct (p a) eqn:Hp; trivial.
    rewrite (Himp a Hp) in Hq. discriminate.
Qed.

Lemma find_matching_failure (step : string) (nodes : list LogNode) :
  (exists s e,
     In (ExecutionStepFailureEvent (Some s) e) nodes
     /\ EventStep.name s = step) ->
  exists node, find (isFailureOfStep step) nodes = Some node.
Proof.
  intros (s & e & Hin & Hs).
  destruct (find (isFailureOfStep step) nodes) as [node|] eqn:Hfind; eauto.
  apply (find_none _ _ Hfind) in Hin.
  assert (isFailureOfStep step (ExecutionStepFailureEvent (Some s) e) = true)
    as Htrue by (apply isFailureOfStep_true; eauto).
  congruence.
Qed.

(** X11.  The error lookup calls nothing outside the component, never
    throws, and never changes the filter or the split ratio, whatever the
    props, the log and the step name. *)
Theorem lookup_touches_only_highlightedError
    (props : IPipelineRunProps.t) (step : string)
    (st : IPipelineRunState.t) :
  let after :=
    onShowStateDetails (Config := Config) (MutationResult := MutationResult)
      props step st in
  effects after = []
  /\ completion after = Returned tt
  /\ IPipelineRunState.logsVW (state after) = IPipelineRunState.logsVW st
  /\ IPipelineRunState.logsFilter (state after)
     = IPipelineRunState.logsFilter st.
Proof.
  cbv zeta.
  destruct (onShowStateDetails_cases props step st)
    as [H|(run & s & e & _ & _ & _ & H)]; rewrite H; repeat split.
Qed.

(** X12.  After an error lookup the highlighted error is either the one
    highlighted before or the error of a failure event of the loaded run's
    log whose step name is the key looked up; the lookup never clears a
    highlighted error. *)
Theorem lookup_highlights_only_logged_errors
    (props : IPipelineRunProps.t) (step : string)
    (st : IPipelineRunState.t) :
  let after :=
    onShowStateDetails (Config := Config) (MutationResult := MutationResult)
      props step st in
  (IPipelineRunState.highlightedError (state after)
   = IPipelineRunState.highlightedError st
   \/ exists run s e,
        IPipelineRunProps.run props = Some run
        /\ In (ExecutionStepFailureEvent (Some s) e)
              (Logs.nodes (PipelineRunFragment.logs run))
        /\ EventStep.name s = step
        /\ IPipelineRunState.highlightedError (state after) = Some e)
  /\ (IPipelineRunState.highlightedError st <> None ->
      IPipelineRunState.highlightedError (state after) <> None).
Proof.
  cbv zeta.
  destruct (onShowStateDetails_cases props step st)
    as [H|(run & s & e & Hrun & Hfind & Hs & H)]; rewrite H; simpl.
  - split; [left; reflexivity | trivial].
  - split; [|discriminate]. right. exists run, s, e.
    apply find_some in Hfind as [Hin _]. auto.
Qed.

(** X13.  Looking up the same key twice in a row is the same as looking it
    up once. *)
Theorem lookup_idempotent
    (props : IPipelineRunProps.t) (step : string)
    (st : IPipelineRunState.t) :
  onShowStateDetails (Config := Config) (MutationResult := MutationResult)
    props step
    (state
       (onShowStateDetails (Config := Config)
          (MutationResult := MutationResult) props step st))
  = onShowStateDetails (Config := Config) (MutationResult := MutationResult)
      props step st.
Proof.
  destruct props as [[run|]]; [|reflexivity].
  rewrite !onShowStateDetails_unfold.
  destruct (find _ _); reflexivity.
Qed.

(** X14.  The lookup is stable when the log grows: once the log holds a
    failure event for the key, events appended later do not change the
    outcome; while it holds none, the outcome is that of the lookup in the
    appended events alone. *)
Theorem lookup_stable_under_log_growth
    (run : PipelineRunFragment.t) (more : list LogNode) (step : string)
    (st : IPipelineRunState.t) :
  ((exists s e,
      In (ExecutionStepFailureEvent (Some s) e)
         (Logs.nodes (PipelineRunFragment.logs run))
      /\ EventStep.name s = step) ->
   onShowStateDetails (Config := Config) (MutationResult := MutationResult)
     (IPipelineRunProps.mk
        (Some
           (withLogs
              (Logs.nodes (PipelineRunFragment.logs run) ++ more) run)))
     step st
   = onShowStateDetails (Config := Config) (MutationResult := MutationResult)
       (IPipelineRunProps.mk (Some run)) step st)
  /\ ((forall s e,
         In (ExecutionStepFailureEvent (Some s) e)
            (Logs.nodes (PipelineRunFragment.logs run)) ->
         EventStep.name s <> step) ->
      onShowStateDetails (Config := Config) (MutationResult := MutationResult)
        (IPipelineRunProps.mk
           (Some
              (withLogs
                 (Logs.nodes (PipelineRunFragment.logs run) ++ more) run)))
        step st
      = onShowStateDetails (Config := Config)
          (MutationResult := MutationResult)
          (IPipelineRunProps.mk (Some (withLogs more run))) step st).
Proof.
  rewrite !onShowStateDetails_unfold. simpl. rewrite find_append. split.
  - intros Hex. apply find_matching_failure in Hex as [node Hnode].
    now rewrite Hnode.
  - intros Hnone.
    rewrite (find_all_false (isFailureOfStep step)
               (Logs.nodes (PipelineRunFragment.logs run))); trivial.
    now apply isFailureOfStep_false.
Qed.

(** X15.  Only step failure events matter to the lookup: dropping every
    node of another type from the log leaves its outcome unchanged. *)
Theorem lookup_ignores_other_events
    (run : PipelineRunFragment.t) (step : string)
    (st : IPipelineRunState.t) :
  onShowStateDetails (Config := Config) (MutationResult := MutationResult)
    (IPipelineRunProps.mk
       (Some
          (withLogs
             (filter isFailureEvent
                (Logs.nodes (PipelineRunFragment.logs run)))
             run)))
    step st
  = onShowStateDetails (Config := Config) (MutationResult := MutationResult)
      (IPipelineRunProps.mk (Some run)) step st.
Proof.
  rewrite !onShowStateDetails_unfold. simpl.
  rewrite find_filter_implied; trivial.
  intros node Hp. unfold isFailureOfStep in Hp.
  apply andb_true_iff in Hp as [Ht _]. exact Ht.
Qed.

Lemma submitted_app (es es' : list (Effect Config MutationResult)) :
  submitted (es ++ es') = (submitted es ++ submitted es')%list.
Proof.
  induction es as [|[v|name r] es IH]; simpl; trivial.
  now rewrite IH.
Qed.

Lemma existsb_find {A : Type} (p : A -> bool) (l : list A) :
  existsb p l = match find p l with Some _ => true | None => false end.
Proof.
  induction l as [|a l IH]; simpl; trivial.
  destruct (p a); simpl; trivial.
Qed.

Lemma onReexecuteStep_state (props : IPipelineRunProps.t)
    (mutation : MutationFn Config MutationResult) (stepName : string)
    (st : IPipelineRunState.t) :
  state (onReexecuteStep yaml_parse props mutation stepName st) = st
  /\ length
       (submitted
          (effects (onReexecuteStep yaml_parse props mutation stepName st)))
     <= 1.
Proof.
  destruct (onReexecuteStep_cases props mutation stepName st)
    as [H|[(run & step & _ & _ & _ & H)
          |[(run & step & config & _ & _ & _ & _ & H)
           |(run & step & config & result & _ & _ & _ & _ & H)]]];
    rewrite H; simpl; split; trivial; lia.
Qed.

Lemma onShowStateDetails_frame (props : IPipelineRunProps.t)
    (step : string) (st : IPipelineRunState.t) :
  effects
    (onShowStateDetails (Config := Config) (MutationResult := MutationResult)
       props step st) = []
  /\ IPipelineRunState.logsFilter
       (state
          (onShowStateDetails (Config := Config)
             (MutationResult := MutationResult) props step st))
     = IPipelineRunState.logsFilter st
  /\ IPipelineRunState.logsVW
       (state
          (onShowStateDetails (Config := Config)
             (MutationResult := MutationResult) props step st))
     = IPipelineRunState.logsVW st.
Proof.
  destruct (onShowStateDetails_cases props step st)
    as [H|(run & s & e & _ & _ & _ & H)]; rewrite H; repeat split.
Qed.

(** X16.  On a sequence of callback calls, every request submitted stems
    from one [ReexecuteStep] call of the sequence: it was made under props
    with a run loaded, its [stepKeys] is the one-element list of the step
    name of that call, that name is the key of a step of the run's plan, and
    its [previousRunId] is the run's id.  There are at most as many requests
    as [ReexecuteStep] calls; no other callback submits anything. *)
Theorem requests_stem_from_reexecute_calls
    (evs : list (IPipelineRunProps.t * UIEvent Config MutationResult))
    (st : IPipelineRunState.t) :
  length (submitted (fst (dispatchAll yaml_parse evs st)))
  <= length (reexecutedSteps evs)
  /\ (forall v,
        In v (submitted (fst (dispatchAll yaml_parse evs st))) ->
        exists props mutation stepName run step,
          In (props, ReexecuteStep mutation stepName) evs
          /\ IPipelineRunProps.run props = Some run
          /\ In step
                (ExecutionPlan.steps (PipelineRunFragment.executionPlan run))
          /\ Step.key step = stepName
          /\ ReexecuteStepVariables.stepKeys v = [stepName]
          /\ ReexecutionConfig.previousRunId
               (ReexecuteStepVariables.reexecutionConfig v)
             = PipelineRunFragment.runId run).
Proof.
  revert st. induction evs as [|[props ev] evs IH]; intros st.
  - simpl. split; [lia | intros v []].
  - simpl. rewrite submitted_app, length_app.
    destruct (IH (state (dispatch yaml_parse props ev st))) as [IHlen IHin].
    set (st1 := state (dispatch yaml_parse props ev st)) in *.
    clearbody st1.
    assert (forall v,
              In v (submitted (fst (dispatchAll yaml_parse evs st1))) ->
              exists props0 mutation stepName run step,
                In (props0, ReexecuteStep mutation stepName)
                   ((props, ev) :: evs)
                /\ IPipelineRunProps.run props0 = Some run
                /\ In step
                      (ExecutionPlan.steps
                         (PipelineRunFragment.executionPlan run))
                /\ Step.key step = stepName
                /\ ReexecuteStepVariables.stepKeys v = [stepName]
                /\ ReexecutionConfig.previousRunId
                     (ReexecuteStepVariables.reexecutionConfig v)
                   = PipelineRunFragment.runId run) as Hlater.
    { intros v Hv.
      destruct (IHin v Hv)
        as (p0 & m0 & n0 & r0 & s0 & Hmem & Hrest).
      exists p0, m0, n0, r0, s0. split; [now right | exact Hrest]. }
    destruct ev as [step|mutation stepName|stepName|filter|vw|].
    + assert (effects (dispatch yaml_parse props
                         (ShowStateDetails step) st) = []) as ->.
      { simpl. apply onShowStateDetails_frame. }
      simpl. split; [lia | exact Hlater].
    + pose proof (onReexecuteStep_state props mutation stepName st)
        as [_ Hone].
      simpl dispatch in *. simpl reexecutedSteps. simpl length.
      split; [lia|].
      intros v Hv. apply in_app_or in Hv as [Hv|Hv]; [|now apply Hlater].
      apply onReexecuteStep_submitted_inv in Hv
        as (run & step & config & Hrun & Hfind & _ & ->).
      apply findStep_member in Hfind as [Hmem Hkey].
      exists props, mutation, stepName, run, step.
      repeat split; trivial. now left.
    + simpl. split; [lia | exact Hlater].
    + simpl. split; [lia | exact Hlater].
    + simpl. split; [lia | exact Hlater].
    + simpl. split; [lia | exact Hlater].
Qed.

(** X17.  Re-execution calls do not take part in the state of the
    component: dropping them from a sequence of callback calls leaves the
    final state unchanged. *)
Theorem reexecute_calls_do_not_affect_state
    (evs : list (IPipelineRunProps.t * UIEvent Config MutationResult))
    (st : IPipelineRunState.t) :
  snd (dispatchAll yaml_parse evs st)
  = snd (dispatchAll yaml_parse
           (filter (fun pe => negb (isReexecuteStep (snd pe))) evs) st).
Proof.
  revert st. induction evs as [|[props ev] evs IH]; intros st; trivial.
  destruct ev as [step|mutation stepName|stepName|filter|vw|];
    simpl; try apply IH.
  rewrite (proj1 (onReexecuteStep_state props mutation stepName st)).
  apply IH.
Qed.

(** X18.  Over any sequence of callback calls, the error highlighted at the
    end is the one highlighted at the start, or none, or the error of a
    failure event that was in the log of the run loaded at one of the
    [ShowStateDetails] calls of the sequence, for the step that call asked
    for. *)
Theorem highlighted_error_comes_from_the_log
    (evs : list (IPipelineRunProps.t * UIEvent Config MutationResult))
    (st : IPipelineRunState.t) :
  IPipelineRunState.highlightedError (snd (dispatchAll yaml_parse evs st))
  = IPipelineRunState.highlightedError st
  \/ IPipelineRunState.highlightedError (snd (dispatchAll yaml_parse evs st))
     = None
  \/ exists props step run s e,
       In (props, ShowStateDetails step) evs
       /\ IPipelineRunProps.run props = Some run
       /\ In (ExecutionStepFailureEvent (Some s) e)
             (Logs.nodes (PipelineRunFragment.logs run))
       /\ EventStep.name s = step
       /\ IPipelineRunState.highlightedError
            (snd (dispatchAll yaml_parse evs st))
          = Some e.
Proof.
  revert st. induction evs as [|[props ev] evs IH]; intros st.
  - left. reflexivity.
  - simpl.
    destruct (IH (state (dispatch yaml_parse props ev st)))
      as [Hsame|[Hnone|(p0 & k0 & r0 & s0 & e0 & Hmem & Hrest)]].
    + rewrite Hsame.
      destruct ev as [step|mutation stepName|stepName|filter|vw|]; simpl.
      * destruct (onShowStateDetails_cases props step st)
          as [H|(run & s & e & Hrun & Hfind & Hs & H)]; rewrite H; simpl.
        -- now left.
        -- right; right. exists props, step, run, s, e.
           apply find_some in Hfind as [Hin _].
           repeat split; trivial. now left.
      * left.
        now rewrite (proj1 (onReexecuteStep_state props mutation stepName st)).
      * now left.
      * now left.
      * now left.
      * right; left. reflexivity.
    + right; left. exact Hnone.
    + right; right. exists p0, k0, r0, s0, e0.
      split; [now right | exact Hrest].
Qed.

(** X19.  Over any sequence of callback calls that never replaces the whole
    filter, the fields of the filter other than its text stay what they
    were, and its text is "step:" followed by the step name of the last
    [ApplyStepFilter] call, or the initial text when there was none: step
    filters replace one another and do not pile up.  The split ratio stays
    what it was when the divider is never moved. *)
Theorem filter_over_callback_sequences
    (evs : list (IPipelineRunProps.t * UIEvent Config MutationResult))
    (st : IPipelineRunState.t) :
  (forallb (fun pe => negb (isSetFilter (snd pe))) evs = true ->
   ILogFilter.levels
     (IPipelineRunState.logsFilter (snd (dispatchAll yaml_parse evs st)))
   = ILogFilter.levels (IPipelineRunState.logsFilter st)
   /\ ILogFilter.sinceStepKey
        (IPipelineRunState.logsFilter (snd (dispatchAll yaml_parse evs st)))
      = ILogFilter.sinceStepKey (IPipelineRunState.logsFilter st)
   /\ ILogFilter.text
        (IPipelineRunState.logsFilter (snd (dispatchAll yaml_parse evs st)))
      = match lastAppliedStep evs with
        | Some stepName => "step:" ++ stepName
        | None => ILogFilter.text (IPipelineRunState.logsFilter st)
        end)
  /\ (forallb (fun pe => negb (isMove (snd pe))) evs = true ->
      IPipelineRunState.logsVW (snd (dispatchAll yaml_parse evs st))
      = IPipelineRunState.logsVW st).
Proof.
  revert st. induction evs as [|[props ev] evs IH]; intros st.
  - simpl. auto.
  - simpl forallb. simpl dispatchAll. cbv zeta. simpl snd.
    destruct (IH (state (dispatch yaml_parse props ev st))) as [IHf IHm].
    assert (forall k,
              IPipelineRunState.logsFilter
                (state (onShowStateDetails (Config := Config)
                          (MutationResult := MutationResult) props k st))
              = IPipelineRunState.logsFilter st
              /\ IPipelineRunState.logsVW
                   (state (onShowStateDetails (Config := Config)
                             (MutationResult := MutationResult) props k st))
                 = IPipelineRunState.logsVW st) as Hlookup.
    { intros k.
      destruct (onShowStateDetails_frame props k st) as (_ & Hf & Hvw).
      auto. }
    split.
    + intros Hall. apply andb_true_iff in Hall as [Hev Hall].
      destruct (IHf Hall) as (Hlev & Hsince & Htext).
      rewrite Hlev, Hsince, Htext. simpl lastAppliedStep.
      destruct ev as [k|mutation stepName|stepName|filter|vw|];
        simpl in Hev; try discriminate; simpl dispatch.
      * destruct (Hlookup k) as [-> _].
        destruct (lastAppliedStep evs); auto.
      * rewrite (proj1 (onReexecuteStep_state props mutation stepName st)).
        destruct (lastAppliedStep evs); auto.
      * simpl. destruct (lastAppliedStep evs); auto.
      * simpl. destruct (lastAppliedStep evs); auto.
      * simpl. destruct (lastAppliedStep evs); auto.
    + intros Hall. apply andb_true_iff in Hall as [Hev Hall].
      rewrite (IHm Hall).
      destruct ev as [k|mutation stepName|stepName|filter|vw|];
        simpl in Hev; try discriminate; simpl dispatch; trivial.
      * now destruct (Hlookup k) as [_ ->].
      * now rewrite (proj1 (onReexecuteStep_state props mutation stepName st)).
Qed.

(** X20.  Every step the rendered execution plan offers can be re-executed:
    a run is loaded, the handler finds a step with that key (the first one
    in plan order), never takes the silent path for an unknown step, and
    when the configuration parses it submits exactly one request, for that
    key. *)
Theorem rendered_steps_can_be_reexecuted
    (props : IPipelineRunProps.t) (s : Step.t)
    (mutation : MutationFn Config MutationResult)
    (st : IPipelineRunState.t) :
  In s (ExecutionPlan.steps (renderedExecutionPlan props)) ->
  exists run step,
    IPipelineRunProps.run props = Some run
    /\ findStep (PipelineRunFragment.executionPlan run) (Step.key s)
       = Some step
    /\ Step.key step = Step.key s
    /\ (forall config,
          yaml_parse (PipelineRunFragment.config run) = Some config ->
          submitted
            (effects
               (onReexecuteStep yaml_parse props mutation (Step.key s) st))
          = [requestFor run (Step.key s) step config])
    /\ (yaml_parse (PipelineRunFragment.config run) = None ->
        completion
          (onReexecuteStep yaml_parse props mutation (Step.key s) st)
        = Thrown YAMLParseError).
Proof.
  unfold renderedExecutionPlan. destruct props as [[run|]]; simpl.
  2: { intros []. }
  intros Hin. destruct (findStep_of_member _ s Hin) as (step & Hfind & Hk & _).
  exists run, step. repeat split; trivial.
  - intros config Hyaml. now apply onReexecuteStep_submitted.
  - intros Hyaml.
    now rewrite (onReexecuteStep_bad_config _ _ _ _ run _ _ step).
Qed.

(** X21.  The error dialog is open after a lookup exactly when it was open
    before or the log handed to the children holds a failure event for the
    key; the lookup never closes it, closing it always does, and the error
    it shows after a lookup that found one is the error of the first such
    event. *)
Theorem dialog_open_after_lookup
    (props : IPipelineRunProps.t) (step : string)
    (st : IPipelineRunState.t) :
  dialogIsOpen
    (state
       (onShowStateDetails (Config := Config)
          (MutationResult := MutationResult) props step st))
  = dialogIsOpen st || existsb (isFailureOfStep step) (metadataLogs props)
  /\ dialogIsOpen
       (state
          (onClose (Config := Config) (MutationResult := MutationResult)
             (state
                (onShowStateDetails (Config := Config)
                   (MutationResult := MutationResult) props step st))))
     = false
  /\ (forall node,
        find (isFailureOfStep step) (metadataLogs props) = Some node ->
        dialogError
          (state
             (onShowStateDetails (Config := Config)
                (MutationResult := MutationResult) props step st))
        = node_error node
        /\ node_error node <> None).
Proof.
  rewrite existsb_find. unfold metadataLogs, renderedLogs, dialogError.
  destruct props as [[run|]]; simpl IPipelineRunProps.run; cbv iota.
  - rewrite onShowStateDetails_unfold.
    destruct (find (isFailureOfStep step)
                (Logs.nodes (PipelineRunFragment.logs run)))
      as [node|] eqn:Hfind.
    + apply find_some in Hfind as [_ Hp].
      apply isFailureOfStep_true in Hp as (s & e & -> & _).
      unfold dialogIsOpen. simpl. rewrite orb_true_r.
      split; [reflexivity|]. split; [reflexivity|].
      intros found Hfound. injection Hfound as <-.
      split; [reflexivity | discriminate].
    + unfold dialogIsOpen. simpl. rewrite orb_false_r.
      repeat split; trivial; discriminate.
  - unfold dialogIsOpen. simpl. rewrite orb_false_r.
    repeat split; trivial; discriminate.
Qed.

End FurtherProperties.

(** ** The further properties at the sample data *)

Lemma reexecute_malformed_config_submits_nothing_witness :
  In stepTwoInputs
     (ExecutionPlan.steps
        (PipelineRunFragment.executionPlan sampleRunBadConfig))
  /\ sampleYamlParse (PipelineRunFragment.config sampleRunBadConfig) = None
  /\ onReexecuteStep sampleYamlParse
       (IPipelineRunProps.mk (Some sampleRunBadConfig))
       sampleMutation "T" sampleState
     = mkOutcome [] sampleState (Thrown YAMLParseError).
Proof.
  split; [right; right; left; reflexivity|]. split; [reflexivity|].
  exact
    (reexecute_malformed_config_submits_nothing string string sampleYamlParse
       (IPipelineRunProps.mk (Some sampleRunBadConfig)) sampleRunBadConfig
       sampleMutation stepTwoInputs sampleState eq_refl
       (or_intror (or_intror (or_introl eq_refl))) eq_refl).
Defined.

Lemma reexecute_rejected_mutation_skips_result_handler_witness :
  rejectingMutation (sampleRequest stepTwoInputs) = None
  /\ completion
       (onReexecuteStep sampleYamlParse (sampleProps stepsTwoInputs true)
          rejectingMutation "T" sampleState)
     = Thrown MutationRejected
  /\ submitted
       (effects
          (onReexecuteStep sampleYamlParse (sampleProps stepsTwoInputs true)
             rejectingMutation "T" sampleState))
     = [sampleRequest stepTwoInputs].
Proof.
  split; [reflexivity|].
  destruct
    (reexecute_rejected_mutation_skips_result_handler string string
       sampleYamlParse (sampleProps stepsTwoInputs true)
       (sampleRun stepsTwoInputs true) rejectingMutation "T" stepTwoInputs
       "solids: {}" sampleState eq_refl eq_refl eq_refl eq_refl)
    as (Hthrown & Hsub & _).
  split; [exact Hthrown | exact Hsub].
Defined.

Lemma result_handler_only_after_resolved_mutation_witness :
  In (HandleStartExecutionResult "pipe" "started")
     (effects
        (onReexecuteStep sampleYamlParse (sampleProps stepsTwoInputs true)
           sampleMutation "T" sampleState))
  /\ exists v,
       sampleMutation v = Some "started"
       /\ effects
            (onReexecuteStep sampleYamlParse (sampleProps stepsTwoInputs true)
               sampleMutation "T" sampleState)
          = [Mutation v; HandleStartExecutionResult "pipe" "started"].
Proof.
  assert (In (HandleStartExecutionResult "pipe" "started")
             (effects
                (onReexecuteStep sampleYamlParse
                   (sampleProps stepsTwoInputs true)
                   sampleMutation "T" sampleState))) as Hin.
  { right; left; reflexivity. }
  split; [exact Hin|].
  destruct
    (result_handler_only_after_resolved_mutation string string
       sampleYamlParse (sampleProps stepsTwoInputs true) sampleMutation "T"
       sampleState "pipe" "started" Hin)
    as (run & v & _ & _ & Hm & Heff & _).
  exists v. split; [exact Hm | exact Heff].
Defined.

Lemma reexecute_submits_at_most_once_witness :
  In (sampleRequest stepTwoInputs)
     (submitted
        (effects
           (onReexecuteStep sampleYamlParse (sampleProps stepsTwoInputs true)
              sampleMutation "T" sampleState)))
  /\ exists rest,
       effects
         (onReexecuteStep sampleYamlParse (sampleProps stepsTwoInputs true)
            sampleMutation "T" sampleState)
       = Mutation (sampleRequest stepTwoInputs) :: rest.
Proof.
  assert (In (sampleRequest stepTwoInputs)
            (submitted
               (effects
                  (onReexecuteStep sampleYamlParse
                     (sampleProps stepsTwoInputs true)
                     sampleMutation "T" sampleState)))) as Hin.
  { left; reflexivity. }
  split; [exact Hin|].
  exact
    (proj2
       (reexecute_submits_at_most_once string string sampleYamlParse
          (sampleProps stepsTwoInputs true) sampleMutation "T" sampleState)
       (sampleRequest stepTwoInputs) Hin).
Defined.

Lemma submitted_request_is_filled_from_run_witness :
  In (sampleRequest stepTwoInputs)
     (submitted
        (effects
           (onReexecuteStep sampleYamlParse (sampleProps stepsTwoInputs true)
              sampleMutation "T" sampleState)))
  /\ exists run,
       IPipelineRunProps.run (sampleProps stepsTwoInputs true) = Some run
       /\ ReexecutionConfig.previousRunId
            (ReexecuteStepVariables.reexecutionConfig
               (sampleRequest stepTwoInputs))
          = PipelineRunFragment.runId run
       /\ ExecutionSelector.solidSubset
            (ReexecuteStepVariables.pipeline (sampleRequest stepTwoInputs))
          = map Solid.name
              (Pipeline.solids (PipelineRunFragment.pipeline run)).
Proof.
  assert (In (sampleRequest stepTwoInputs)
            (submitted
               (effects
                  (onReexecuteStep sampleYamlParse
                     (sampleProps stepsTwoInputs true)
                     sampleMutation "T" sampleState)))) as Hin.
  { left; reflexivity. }
  split; [exact Hin|].
  destruct
    (submitted_request_is_filled_from_run string string sampleYamlParse
       (sampleProps stepsTwoInputs true) sampleMutation "T" sampleState
       (sampleRequest stepTwoInputs) Hin)
    as (run & Hrun & Hid & _ & _ & Hsubset & _).
  exists run. auto.
Defined.

Lemma first_step_with_key_is_planned_witness :
  ExecutionPlan.steps
    (PipelineRunFragment.executionPlan (sampleRun stepsDuplicateKey true))
  = ([] ++ stepFirstT :: [stepSecondT])%list
  /\ Step.key stepSecondT = Step.key stepFirstT
  /\ In (sampleRequest stepFirstT)
        (submitted
           (effects
              (onReexecuteStep sampleYamlParse
                 (sampleProps stepsDuplicateKey true)
                 sampleMutation "T" sampleState)))
  /\ reusedOutputs (sampleRequest stepFirstT)
     = [StepOutputHandle.mk "A" "result"].
Proof.
  split; [reflexivity|]. split; [reflexivity|].
  assert (In (sampleRequest stepFirstT)
            (submitted
               (effects
                  (onReexecuteStep sampleYamlParse
                     (sampleProps stepsDuplicateKey true)
                     sampleMutation "T" sampleState)))) as Hin.
  { left; reflexivity. }
  split; [exact Hin|].
  exact
    (first_step_with_key_is_planned string string sampleYamlParse
       (sampleProps stepsDuplicateKey true) (sampleRun stepsDuplicateKey true)
       sampleMutation "T" [] [stepSecondT] stepFirstT sampleState
       eq_refl eq_refl eq_refl (fun s (H : In s []) => match H with end)
       (sampleRequest stepFirstT) Hin).
Defined.

Lemma planned_handles_empty_iff_witness :
  findStep (ExecutionPlan.mk stepsTwoInputs true) "A" = Some (Step.mk "A" [])
  /\ plannedHandles (sampleRun stepsTwoInputs true) (Step.mk "A" []) = []
  /\ exists v,
       submitted
         (effects
            (onReexecuteStep sampleYamlParse (sampleProps stepsTwoInputs true)
               sampleMutation "A" sampleState))
       = [v]
       /\ reusedOutputs v = [].
Proof.
  split; [reflexivity|].
  destruct
    (planned_handles_empty_iff string string sampleYamlParse
       (sampleProps stepsTwoInputs true) (sampleRun stepsTwoInputs true)
       sampleMutation "A" (Step.mk "A" []) sampleState eq_refl eq_refl)
    as (_ & Hnil & Hsub).
  split; [exact (Hnil eq_refl)|].
  exact (Hsub "solids: {}" eq_refl (Hnil eq_refl)).
Defined.

Lemma lookup_highlights_only_logged_errors_witness :
  IPipelineRunState.highlightedError
    (IPipelineRunState.mk 75 sampleFilter (Some boom)) <> None
  /\ IPipelineRunState.highlightedError
       (state
          (onShowStateDetails (Config := string) (MutationResult := string)
             (sampleProps stepsTwoInputs true) "Y"
             (IPipelineRunState.mk 75 sampleFilter (Some boom))))
     <> None.
Proof.
  assert (IPipelineRunState.highlightedError
            (IPipelineRunState.mk 75 sampleFilter (Some boom)) <> None)
    as Hset by discriminate.
  split; [exact Hset|].
  exact
    (proj2
       (lookup_highlights_only_logged_errors string string
          (sampleProps stepsTwoInputs true) "Y"
          (IPipelineRunState.mk 75 sampleFilter (Some boom)))
       Hset).
Defined.

Lemma lookup_stable_under_log_growth_witness :
  (exists s e,
     In (ExecutionStepFailureEvent (Some s) e)
        (Logs.nodes
           (PipelineRunFragment.logs (sampleRun stepsTwoInputs true)))
     /\ EventStep.name s = "X")
  /\ onShowStateDetails (Config := string) (MutationResult := string)
       (IPipelineRunProps.mk
          (Some
             (withLogs
                (Logs.nodes
                   (PipelineRunFragment.logs (sampleRun stepsTwoInputs true))
                 ++ [ ExecutionStepFailureEvent (Some (EventStep.mk "X"))
                        (PythonError.mk "later" []) ])
                (sampleRun stepsTwoInputs true))))
       "X" sampleState
     = onShowStateDetails (Config := string) (MutationResult := string)
         (sampleProps stepsTwoInputs true) "X" sampleState.
Proof.
  assert (exists s e,
            In (ExecutionStepFailureEvent (Some s) e)
               (Logs.nodes
                  (PipelineRunFragment.logs (sampleRun stepsTwoInputs true)))
            /\ EventStep.name s = "X") as Hex.
  { exists (EventStep.mk "X"), boom. split; [right; left|]; reflexivity. }
  split; [exact Hex|].
  exact
    (proj1
       (lookup_stable_under_log_growth string string
          (sampleRun stepsTwoInputs true)
          [ ExecutionStepFailureEvent (Some (EventStep.mk "X"))
              (PythonError.mk "later" []) ]
          "X" sampleState)
       Hex).
Defined.

Lemma requests_stem_from_reexecute_calls_witness :
  In (sampleRequest stepTwoInputs)
     (submitted (fst (dispatchAll sampleYamlParse sampleEvents sampleState)))
  /\ exists props mutation stepName,
       In (props, ReexecuteStep mutation stepName) sampleEvents
       /\ ReexecuteStepVariables.stepKeys (sampleRequest stepTwoInputs)
          = [stepName].
Proof.
  assert (In (sampleRequest stepTwoInputs)
            (submitted
               (fst (dispatchAll sampleYamlParse sampleEvents sampleState))))
    as Hin.
  { left; reflexivity. }
  split; [exact Hin|].
  destruct
    (proj2
       (requests_stem_from_reexecute_calls string string sampleYamlParse
          sampleEvents sampleState)
       (sampleRequest stepTwoInputs) Hin)
    as (props & mutation & stepName & run & step & Hmem & _ & _ & _ & Hkeys
        & _).
  exists props, mutation, stepName. split; [exact Hmem | exact Hkeys].
Defined.

Lemma filter_over_callback_sequences_witness :
  forallb (fun pe => negb (isSetFilter (snd pe))) sampleEvents = true
  /\ forallb (fun pe => negb (isMove (snd pe))) sampleEvents = true
  /\ ILogFilter.levels
       (IPipelineRunState.logsFilter
          (snd (dispatchAll sampleYamlParse sampleEvents sampleState)))
     = ["INFO"; "ERROR"]
  /\ ILogFilter.text
       (IPipelineRunState.logsFilter
          (snd (dispatchAll sampleYamlParse sampleEvents sampleState)))
     = "step:A"
  /\ IPipelineRunState.logsVW
       (snd (dispatchAll sampleYamlParse sampleEvents sampleState))
     = 75%Z.
Proof.
  split; [reflexivity|]. split; [reflexivity|].
  destruct
    (filter_over_callback_sequences string string sampleYamlParse
       sampleEvents sampleState)
    as [Hfilter Hmove].
  destruct (Hfilter eq_refl) as (Hlevels & _ & Htext).
  split; [exact Hlevels|]. split; [exact Htext|].
  exact (Hmove eq_refl).
Defined.

Lemma rendered_steps_can_be_reexecuted_witness :
  In stepTwoInputs
     (ExecutionPlan.steps
        (renderedExecutionPlan (sampleProps stepsTwoInputs true)))
  /\ submitted
       (effects
          (onReexecuteStep sampleYamlParse (sampleProps stepsTwoInputs true)
             sampleMutation "T" sampleState))
     = [sampleRequest stepTwoInputs].
Proof.
  assert (In stepTwoInputs
            (ExecutionPlan.steps
               (renderedExecutionPlan (sampleProps stepsTwoInputs true))))
    as Hin.
  { right; right; left; reflexivity. }
  split; [exact Hin|].
  destruct
    (rendered_steps_can_be_reexecuted string string sampleYamlParse
       (sampleProps stepsTwoInputs true) stepTwoInputs sampleMutation
       sampleState Hin)
    as (run & step & Hrun & Hfind & _ & Hsub & _).
  injection Hrun as <-. injection Hfind as <-.
  exact (Hsub "solids: {}" eq_refl).
Defined.

Lemma dialog_open_after_lookup_witness :
  find (isFailureOfStep "X") (metadataLogs (sampleProps stepsTwoInputs true))
  = Some (ExecutionStepFailureEvent (Some (EventStep.mk "X")) boom)
  /\ dialogError
       (state
          (onShowStateDetails (Config := string) (MutationResult := string)
             (sampleProps stepsTwoInputs true) "X" sampleState))
     = Some boom.
Proof.
  split; [reflexivity|].
  destruct
    (dialog_open_after_lookup string string
       (sampleProps stepsTwoInputs true) "X" sampleState)
    as (_ & _ & Hshown).
  exact
    (proj1
       (Hshown (ExecutionStepFailureEvent (Some (EventStep.mk "X")) boom)
          eq_refl)).
Defined.
